(** * MacroViz v0.1 ([app.py]): a shallow embedding and its properties

    The script fetches one World Bank indicator for a list of countries,
    normalises every reply into a table of observations, concatenates the
    tables and renders the result.  This file embeds

    - the JSON payload and Python's view of it (truthiness, [dict.get],
      [int(...)], iteration),
    - the part of pandas the script uses ([DataFrame(rows)], [dropna],
      [sort_values], [reset_index], [concat], [empty]),
    - [fetch_world_bank], with the [st.cache_data] memo table around it,
    - the top-level script as a state-passing program over the network log,
      the memo table and the list of elements put on the page.

    Conventions.  A Python [str] is a Rocq [string]; [strip] and [upper] act
    on the ASCII range.  [int(s)] on a string is a parameter of the model
    ([int_of_str]).  A table keeps its index labels next to its rows; the
    storage type pandas picks for a column is not modelled, a year is the
    integer [int(...)] returned.  [sort_values] is modelled by an insertion
    sort on the [year] key (missing keys last); pandas leaves the order of
    rows with equal keys to its algorithm, so what depends on that order is
    stated for every algorithm that returns a sorted permutation. *)

From Stdlib Require Import ZArith Ascii String Sorted Permutation.
From Stdlib Require Import DecimalString DecimalZ.
From Stdlib Require DecimalPos.
From stdpp Require Import base option list strings gmap sorting.

Open Scope Z_scope.
Set Warnings "-register-all".

(** ** JSON values, as [r.json()] returns them *)

Inductive json :=
| JNull
| JBool (b : bool)
| JInt (n : Z)
| JFloat (num : Z) (den : positive)   (* a finite float, the rational num/den *)
| JNaN                                (* the literal NaN *)
| JInfinity (negative : bool)         (* the literals Infinity and -Infinity *)
| JStr (s : string)
| JList (l : list json)
| JDict (d : list (string * json)).   (* the first binding of a key counts *)

(** ** Exceptions and the result of a call that may raise *)

Inductive exn :=
| RequestException            (* raised by [requests.get] *)
| HTTPError (status : Z)      (* raised by [raise_for_status] *)
| JSONDecodeError             (* raised by [r.json()] *)
| AttributeError
| TypeError
| ValueError
| OverflowError
| KeyError.

Inductive result (A : Type) :=
| Ok (a : A)
| Raise (e : exn).
Arguments Ok {A} a.
Arguments Raise {A} e.

#[global] Instance result_ret : MRet result := fun _ a => Ok a.
#[global] Instance result_bind : MBind result :=
  fun _ _ f m => match m with Ok a => f a | Raise e => Raise e end.
#[global] Instance result_fmap : FMap result :=
  fun _ _ f m => match m with Ok a => Ok (f a) | Raise e => Raise e end.

Definition is_ok {A} (r : result A) : bool :=
  match r with Ok _ => true | Raise _ => false end.

(** ** Python built-ins on JSON values *)

(** [bool(v)], the test behind [if v] and [v or w]. *)
Definition truthy (v : json) : bool :=
  match v with
  | JNull => false
  | JBool b => b
  | JInt n => negb (n =? 0)
  | JFloat num _ => negb (num =? 0)
  | JNaN | JInfinity _ => true
  | JStr s => negb (String.eqb s EmptyString)
  | JList l => match l with [] => false | _ => true end
  | JDict d => match d with [] => false | _ => true end
  end.

Fixpoint assoc (key : string) (d : list (string * json)) : option json :=
  match d with
  | [] => None
  | (k, v) :: d' => if String.eqb k key then Some v else assoc key d'
  end.

(** [item.get(key, default)]; only a dict has the attribute [get]. *)
Definition py_get_default (item : json) (key : string) (default : json) : result json :=
  match item with
  | JDict d => Ok (from_option id default (assoc key d))
  | _ => Raise AttributeError
  end.

(** [item.get(key)] *)
Definition py_get (item : json) (key : string) : result json :=
  py_get_default item key JNull.

(** [x or {}] *)
Definition or_empty_dict (x : json) : json :=
  if truthy x then x else JDict [].

(** [(item.get(key) or {}).get(sub, default)] *)
Definition nested_get (item : json) (key sub : string) (default : json) : result json :=
  x ← py_get item key;
  py_get_default (or_empty_dict x) sub default.

Section Int.

(** [int(s)] for a string [s]: [None] when Python raises [ValueError]. *)
Variable int_of_str : string → option Z.

(** [int(v)] *)
Definition py_int (v : json) : result Z :=
  match v with
  | JBool b => Ok (if b then 1 else 0)
  | JInt n => Ok n
  | JFloat num den => Ok (Z.quot num (Z.pos den))
  | JNaN => Raise ValueError
  | JInfinity _ => Raise OverflowError
  | JStr s => match int_of_str s with Some n => Ok n | None => Raise ValueError end
  | JNull | JList _ | JDict _ => Raise TypeError
  end.

End Int.

(** [for item in v]: the items a [for] loop visits. *)
Definition py_iter (v : json) : result (list json) :=
  match v with
  | JList l => Ok l
  | JStr s => Ok ((λ c, JStr (String c EmptyString)) <$> String.list_ascii_of_string s)
  | JDict d => Ok ((λ kv, JStr kv.1) <$> d)
  | JNull | JBool _ | JInt _ | JFloat _ _ | JNaN | JInfinity _ => Raise TypeError
  end.

(** ** Strings: [upper], [strip], [split(",")] *)

Definition upper_ascii (c : ascii) : ascii :=
  let n := nat_of_ascii c in
  if ((97 <=? n) && (n <=? 122))%nat then ascii_of_nat (n - 32) else c.

Fixpoint upper (s : string) : string :=
  match s with
  | EmptyString => EmptyString
  | String c s' => String (upper_ascii c) (upper s')
  end.

(** The ASCII characters [str.isspace] accepts.  Blanks beyond ASCII, which
    [str.strip] removes as well, are outside this model of [str]. *)
Definition is_space (c : ascii) : bool :=
  let n := nat_of_ascii c in
  (((9 <=? n) && (n <=? 13)) || ((28 <=? n) && (n <=? 32)))%nat.

Fixpoint lstrip (s : string) : string :=
  match s with
  | EmptyString => EmptyString
  | String c s' => if is_space c then lstrip s' else s
  end.

Fixpoint rstrip (s : string) : string :=
  match s with
  | EmptyString => EmptyString
  | String c s' =>
      match rstrip s' with
      | EmptyString => if is_space c then EmptyString else String c EmptyString
      | t => String c t
      end
  end.

Definition strip (s : string) : string := rstrip (lstrip s).

(** [s.split(",")] *)
Fixpoint split_comma (s : string) : list string :=
  match s with
  | EmptyString => [EmptyString]
  | String c s' =>
      if Ascii.eqb c "," then EmptyString :: split_comma s'
      else match split_comma s' with
           | t :: ts => String c t :: ts
           | [] => [String c EmptyString]
           end
  end.

(** [[c.strip().upper() for c in countries_text.split(",") if c.strip()]] *)
Definition parse_countries (countries_text : string) : list string :=
  (λ c, upper (strip c)) <$>
    filter (λ c, strip c ≠ EmptyString) (split_comma countries_text).

(** ** Observations and tables *)

(** One dict appended to [rows]. *)
Record row := Row {
  iso3 : string;
  country : json;
  indicator : json;
  year : option Z;
  value : json;
}.

(** A [pd.DataFrame]: whether it has the five observation columns, and its
    rows, each next to its index label. *)
Record DataFrame := Frame {
  columns : bool;
  records : list (nat * row);
}.

(** A [RangeIndex]: labels 0, 1, 2, ... *)
Definition enumerate {A} (l : list A) : list (nat * A) := imap (λ i x, (i, x)) l.

(** [pd.DataFrame(rows)]: an empty list of dicts gives a table without columns. *)
Definition pd_DataFrame (rows : list row) : DataFrame :=
  Frame (bool_decide (rows ≠ [])) (enumerate rows).

(** [pd.DataFrame(columns=["iso3", "country", "indicator", "year", "value"])] *)
Definition empty_observations : DataFrame := Frame true [].

(** [pd.DataFrame()] *)
Definition pd_DataFrame_none : DataFrame := Frame false [].

(** [year] is not [None]. *)
Definition has_year (r : row) : bool :=
  match year r with Some _ => true | None => false end.

(** [df.dropna(subset=["year"])]: [KeyError] when there is no such column. *)
Definition dropna_year (df : DataFrame) : result DataFrame :=
  if columns df then Ok (Frame true (filter (λ r, has_year r.2 = true) (records df)))
  else Raise KeyError.

(** The order [sort_values] uses on the key: ascending, missing keys last. *)
Definition year_leb (a b : option Z) : bool :=
  match a, b with
  | Some x, Some y => x <=? y
  | _, None => true
  | None, Some _ => false
  end.

(** The sort behind [sort_values]: an insertion sort.  pandas' default
    algorithm promises a sorted permutation and no order among equal keys;
    where the years are pairwise distinct there is one such arrangement
    only.  What is stated of the sorted rows is that they are a sorted
    permutation; the chain of line 46 is also given for an arbitrary
    algorithm ([normalize_with]). *)
Fixpoint insert_by_year (x : nat * row) (l : list (nat * row)) : list (nat * row) :=
  match l with
  | [] => [x]
  | y :: l' =>
      if year_leb (year x.2) (year y.2) then x :: l else y :: insert_by_year x l'
  end.

Fixpoint sort_by_year (l : list (nat * row)) : list (nat * row) :=
  match l with
  | [] => []
  | x :: l' => insert_by_year x (sort_by_year l')
  end.

(** [df.sort_values("year")] *)
Definition sort_values_year (df : DataFrame) : result DataFrame :=
  if columns df then Ok (Frame true (sort_by_year (records df)))
  else Raise KeyError.

(** [df.reset_index(drop=True)] *)
Definition reset_index (df : DataFrame) : DataFrame :=
  Frame (columns df) (enumerate (snd <$> records df)).

(** The chain of line 46, applied to a table. *)
Definition normalize (df : DataFrame) : result DataFrame :=
  d ← dropna_year df;
  s ← sort_values_year d;
  mret (reset_index s).

(** [pd.concat(frames, ignore_index=True)], for a non-empty list. *)
Definition pd_concat (frames : list DataFrame) : DataFrame :=
  Frame (existsb columns frames) (enumerate (snd <$> concat (records <$> frames))).

(** [df.empty] *)
Definition df_empty (df : DataFrame) : bool :=
  negb (columns df) || bool_decide (records df = []).

(** ** [fetch_world_bank] *)

(** What [requests.get] gives back: no response at all (it raises), or a
    status code and a body that [r.json()] can decode or not. *)
Inductive response :=
| NoReply
| Reply (status : Z) (body : option json).

Section Fetch.

Variable int_of_str : string → option Z.

(** Lines 37-44: the dict built for one [item]. *)
Definition build_row (country_iso3 indicator_code : string) (item : json) : result row :=
  date ← py_get item "date";
  cty ← nested_get item "country" "value" (JStr (upper country_iso3));
  ind ← nested_get item "indicator" "id" (JStr indicator_code);
  y ← (if truthy date then Some <$> py_int int_of_str date else Ok None);
  v ← py_get item "value";
  mret (Row (upper country_iso3) cty ind y v).

(** Lines 35-47, for [data[1] = second]. *)
Definition rows_to_table (country_iso3 indicator_code : string) (second : json)
  : result DataFrame :=
  items ← py_iter second;
  rows ← mapM (build_row country_iso3 indicator_code) items;
  normalize (pd_DataFrame rows).

(** Lines 32-47, for [data = r.json()]. *)
Definition table_of_payload (country_iso3 indicator_code : string) (data : json)
  : result DataFrame :=
  match data with
  | JList (_ :: second :: _) =>
      match second with
      | JNull => Ok empty_observations
      | _ => rows_to_table country_iso3 indicator_code second
      end
  | _ => Ok empty_observations
  end.

(** [r.raise_for_status()] raises on 4xx and 5xx. *)
Definition raise_for_status (status : Z) : result unit :=
  if (400 <=? status) && (status <? 600) then Raise (HTTPError status) else Ok ().

(** The body of [fetch_world_bank], given what its GET produced.  The year
    range only goes into the URL. *)
Definition fetch_body (country_iso3 indicator_code : string) (resp : response)
  : result DataFrame :=
  match resp with
  | NoReply => Raise RequestException
  | Reply status body =>
      raise_for_status status;;
      match body with
      | None => Raise JSONDecodeError
      | Some data => table_of_payload country_iso3 indicator_code data
      end
  end.

End Fetch.

(** ** The page, the memo table and the script monad *)

(** [INDICATORS]: the eight display names and their service codes. *)
Inductive indicator_name :=
| GDP | GDP_per_capita | Population | Inflation
| Unemployment | CO2_emissions | Exports | Imports.

Definition INDICATORS (n : indicator_name) : string :=
  match n with
  | GDP => "NY.GDP.MKTP.CD"
  | GDP_per_capita => "NY.GDP.PCAP.CD"
  | Population => "SP.POP.TOTL"
  | Inflation => "FP.CPI.TOTL.ZG"
  | Unemployment => "SL.UEM.TOTL.ZS"
  | CO2_emissions => "EN.ATM.CO2E.KT"
  | Exports => "NE.EXP.GNFS.ZS"
  | Imports => "NE.IMP.GNFS.ZS"
  end.

(** The sidebar widgets' values for one execution of the script. *)
Record inputs := Inputs {
  countries_text : string;
  indicator_choice : indicator_name;
  start_year : Z;
  end_year : Z;
  run : bool;                      (* the "Load data" button *)
}.

(** The texts the script shows. *)
Inductive message :=
| ConfigureInputs                       (* line 68 *)
| NoCountries                           (* line 72 *)
| TooManyCountries                      (* line 76 *)
| FetchFailed (c : string) (e : exn)    (* line 85: "{c}: failed to fetch ({e})" *)
| NoData.                               (* line 90 *)

(** What the script puts on the page from line 63 on, in order. *)
Inductive element :=
| Markdown (indicator_code : string)
| StInfo (m : message)
| StError (m : message)
| StWarning (m : message)
| PlotlyChart (df : DataFrame)
| StDataframe (df : DataFrame)
| DownloadButton (df : DataFrame) (indicator_code : string) (start_year end_year : Z).

(** The arguments of one call of [fetch_world_bank]; the key of its memo. *)
Definition request : Type := string * string * Z * Z.

(** The process around one execution: the GETs sent so far, the memo table
    of [st.cache_data], and the page. *)
Record runtime := Runtime {
  net_log : list request;
  cache : gmap request DataFrame;
  page : list element;
}.

(** [st.stop()] ends the execution; anything else goes on with a value. *)
Inductive flow (A : Type) :=
| Continue (a : A)
| Stopped.
Arguments Continue {A} a.
Arguments Stopped {A}.

Definition script (A : Type) : Type := runtime → flow A * runtime.

#[global] Instance script_ret : MRet script := fun _ a rt => (Continue a, rt).
#[global] Instance script_bind : MBind script :=
  fun _ _ f m rt =>
    match m rt with
    | (Continue a, rt') => f a rt'
    | (Stopped, rt') => (Stopped, rt')
    end.

Definition show (e : element) : script unit :=
  fun rt => (Continue (), Runtime (net_log rt) (cache rt) (page rt ++ [e])).

Definition st_stop {A} : script A := fun rt => (Stopped, rt).

Section Script.

Variable int_of_str : string → option Z.

(** The service: what the [n]-th GET of the process returns for a request. *)
Variable service : nat → request → response.

(** [fetch_world_bank] under [@st.cache_data]: a stored table is returned
    without a GET; otherwise the body runs, and its table is stored when it
    returns one (an exception stores nothing). *)
Definition fetch_world_bank (country_iso3 indicator_code : string) (start_year end_year : Z)
  : runtime → result DataFrame * runtime :=
  fun rt =>
    let rq : request := (country_iso3, indicator_code, start_year, end_year) in
    match cache rt !! rq with
    | Some df => (Ok df, rt)
    | None =>
        let resp := service (length (net_log rt)) rq in
        let log := net_log rt ++ [rq] in
        match fetch_body int_of_str country_iso3 indicator_code resp with
        | Ok df => (Ok df, Runtime log (<[rq := df]> (cache rt)) (page rt))
        | Raise e => (Raise e, Runtime log (cache rt) (page rt))
        end
    end.

(** Lines 81-85: the loop over [countries], with [frames] as accumulator. *)
Fixpoint fetch_loop (indicator_code : string) (start_year end_year : Z)
    (countries : list string) (frames : list DataFrame) : script (list DataFrame) :=
  match countries with
  | [] => mret frames
  | c :: rest =>
      fun rt =>
        match fetch_world_bank c indicator_code start_year end_year rt with
        | (Ok df, rt') =>
            fetch_loop indicator_code start_year end_year rest (frames ++ [df]) rt'
        | (Raise e, rt') =>
            (show (StWarning (FetchFailed c e));;
             fetch_loop indicator_code start_year end_year rest frames) rt'
        end
  end.

(** Line 87 *)
Definition combine (frames : list DataFrame) : DataFrame :=
  match frames with
  | [] => pd_DataFrame_none
  | _ => pd_concat frames
  end.

(** Lines 93-110 *)
Definition render (df : DataFrame) (indicator_code : string) (start_year end_year : Z)
  : script unit :=
  show (PlotlyChart df);;
  show (StDataframe df);;
  show (DownloadButton df indicator_code start_year end_year).

(** Lines 61-110: the script, for given widget values.  It returns the
    combined table when it gets as far as rendering it. *)
Definition main (i : inputs) : script DataFrame :=
  let indicator_code := INDICATORS (indicator_choice i) in
  let countries := parse_countries (countries_text i) in
  show (Markdown indicator_code);;
  (if run i then mret () else show (StInfo ConfigureInputs);; st_stop);;
  (if bool_decide (length countries = 0%nat)
   then show (StError NoCountries);; st_stop else mret ());;
  (if bool_decide (15 < length countries)%nat
   then show (StError TooManyCountries);; st_stop else mret ());;
  frames ← fetch_loop indicator_code (start_year i) (end_year i) countries [];
  let df := combine frames in
  (if df_empty df then show (StWarning NoData);; st_stop else mret ());;
  render df indicator_code (start_year i) (end_year i);;
  mret df.

End Script.

(** ** Vocabulary for the statements *)

(** The entries of a payload: the items of [data[1]] when it is a list. *)
Definition entries_of (data : json) : list json :=
  match data with
  | JList (_ :: JList items :: _) => items
  | _ => []
  end.

(** [item["date"]] as [item.get("date")] reads it ([JNull] when absent). *)
Definition date_of (item : json) : json :=
  match item with
  | JDict d => from_option id JNull (assoc "date" d)
  | _ => JNull
  end.

(** A well-formed payload: a list of two elements whose second is null or
    a list of per-year entries (dicts). *)
Definition expected_shape (data : json) : bool :=
  match data with
  | JList [_; JNull] => true
  | JList [_; JList items] =>
      forallb (λ item, match item with JDict _ => true | _ => false end) items
  | _ => false
  end.

(** The rows of a table, without their labels. *)
Definition rows_of (df : DataFrame) : list row := snd <$> records df.

(** The order of two labelled rows by their [year] keys. *)
Definition year_le (a b : nat * row) : Prop :=
  year_leb (year a.2) (year b.2) = true.

(** Every row has a year, and the years ascend from top to bottom. *)
Definition ascending_by_year (df : DataFrame) : Prop :=
  ∃ ys : list Z, year <$> rows_of df = Some <$> ys ∧ StronglySorted Z.le ys.

(** What is stored in the memo table came out of the function's body. *)
Definition cache_sound (int_of_str : string → option Z) (m : gmap request DataFrame) : Prop :=
  ∀ c ind s e df, m !! ((c, ind, s, e) : request) = Some df →
    ∃ resp, fetch_body int_of_str c ind resp = Ok df.

(** The same process with another page. *)
Definition set_page (p : list element) (rt : runtime) : runtime :=
  Runtime (net_log rt) (cache rt) p.

(** The tables of the calls that returned, in order. *)
Definition successes (outs : list (string * result DataFrame)) : list DataFrame :=
  omap (λ o, match o.2 with Ok df => Some df | Raise _ => None end) outs.

(** The warnings of the calls that raised, in order. *)
Definition warnings (outs : list (string * result DataFrame)) : list element :=
  omap (λ o, match o.2 with
             | Ok _ => None
             | Raise e => Some (StWarning (FetchFailed o.1 e))
             end) outs.

Section Outcomes.

Variable int_of_str : string → option Z.
Variable service : nat → request → response.

(** The calls of [fetch_world_bank] the loop makes for [countries], in
    order, each with what it returned or raised, and the runtime after the
    last one. *)
Fixpoint fetch_all (indicator_code : string) (start_year end_year : Z)
    (countries : list string) (rt : runtime)
  : list (string * result DataFrame) * runtime :=
  match countries with
  | [] => ([], rt)
  | c :: rest =>
      let '(r, rt') :=
        fetch_world_bank int_of_str service c indicator_code start_year end_year rt in
      let '(outs, rt'') := fetch_all indicator_code start_year end_year rest rt' in
      ((c, r) :: outs, rt'')
  end.

(** The table of line 87, for an execution that gets that far. *)
Definition combined_table (i : inputs) (rt : runtime) : DataFrame :=
  combine (successes
    (fetch_all (INDICATORS (indicator_choice i)) (start_year i) (end_year i)
       (parse_countries (countries_text i)) rt).1).

End Outcomes.

(** A call that raised, or returned a table without rows. *)
Definition failed_or_empty (o : string * result DataFrame) : bool :=
  match o.2 with
  | Ok df => bool_decide (records df = [])
  | Raise _ => true
  end.

(** The chart, the table view and the download button. *)
Definition is_render (el : element) : bool :=
  match el with
  | PlotlyChart _ | StDataframe _ | DownloadButton _ _ _ _ => true
  | _ => false
  end.

(** ** Sample data *)

Definition digit_of (c : ascii) : option Z :=
  let n := nat_of_ascii c in
  if ((48 <=? n) && (n <=? 57))%nat then Some (Z.of_nat (n - 48)) else None.

Fixpoint digits (after_digit : bool) (acc : Z) (s : string) : option Z :=
  match s with
  | EmptyString => if after_digit then Some acc else None
  | String c s' =>
      match digit_of c with
      | Some d => digits true (10 * acc + d) s'
      | None => if Ascii.eqb c "_" && after_digit then digits false acc s' else None
      end
  end.

(** [int(s)] on ASCII decimal literals: blanks around, a sign, digits with
    single underscores between them. *)
Definition int_of_decimal (s : string) : option Z :=
  match strip s with
  | String "-" s' => Z.opp <$> digits false 0 s'
  | String "+" s' => digits false 0 s'
  | s' => digits false 0 s'
  end.

Definition sample_meta : json :=
  JDict [("page", JInt 1); ("pages", JInt 1); ("per_page", JInt 2000); ("total", JInt 2)].

Definition sample_entry (code name id date : string) (v : json) : json :=
  JDict [("indicator", JDict [("id", JStr id); ("value", JStr "Population, total")]);
         ("country", JDict [("id", JStr "XX"); ("value", JStr name)]);
         ("countryiso3code", JStr code);
         ("date", JStr date);
         ("value", v)].

Definition sample_payload (code name : string) : json :=
  JList [sample_meta;
         JList [sample_entry code name "SP.POP.TOTL" "2001" (JInt 82350000);
                sample_entry code name "SP.POP.TOTL" "2000" JNull]].

(** The service's reply to an unknown country code: one element only. *)
Definition sample_error_payload : json :=
  JList [JDict [("message", JList [JDict [("id", JStr "120"); ("key", JStr "Invalid value")]])]].

(** A service that knows DEU and BRA and is unreachable for FRA. *)
Definition sample_service (n : nat) (rq : request) : response :=
  let c := rq.1.1.1 in
  if String.eqb c "DEU" then Reply 200 (Some (sample_payload "DEU" "Germany"))
  else if String.eqb c "BRA" then Reply 200 (Some (sample_payload "BRA" "Brazil"))
  else if String.eqb c "FRA" then NoReply
  else Reply 200 (Some sample_error_payload).

(** A process that has sent no GET and stored no table. *)
Definition fresh : runtime := Runtime [] ∅ [].

(** "Population", 2000 to 2005, "Load data" pressed. *)
Definition sample_inputs (text : string) : inputs :=
  Inputs text Population 2000 2005 true.

(** The table [fetch_world_bank] makes of [sample_payload]. *)
Definition sample_table (code name : string) : DataFrame :=
  Frame true
    [(0%nat, Row code (JStr name) (JStr "SP.POP.TOTL") (Some 2000) JNull);
     (1%nat, Row code (JStr name) (JStr "SP.POP.TOTL") (Some 2001) (JInt 82350000))].

(** Three dicts as the loop of lines 36-44 appends them: years out of order,
    one missing. *)
Definition sample_rows : list row :=
  [Row "DEU" (JStr "Germany") (JStr "SP.POP.TOTL") (Some 2001) (JInt 82350000);
   Row "DEU" (JStr "Germany") (JStr "SP.POP.TOTL") None (JInt 1);
   Row "DEU" (JStr "Germany") (JStr "SP.POP.TOTL") (Some 2000) JNull].

(** An entry whose [date] is there, and empty. *)
Definition blank_date_entry : json :=
  JDict [("date", JStr EmptyString); ("value", JInt 5)].

(** A payload whose first entry reports another indicator than the second. *)
Definition echo_payload : json :=
  JList [sample_meta;
         JList [sample_entry "DEU" "Germany" "SP.POP.0014.TO" "2000" (JInt 12870000);
                sample_entry "DEU" "Germany" "SP.POP.TOTL" "2001" (JInt 82350000)]].

(** ** The URL and the name of the export *)

(** [str(n)] for an [int], as an f-string writes it. *)
Definition str_of_int (n : Z) : string := NilZero.string_of_int (Z.to_int n).

(** Lines 24-27: the URL of the GET.  The service of the model answers the
    arguments this URL is made of. *)
Definition url (country_iso3 indicator_code : string) (start_year end_year : Z) : string :=
  String.append "https://api.worldbank.org/v2/country/"
    (String.append country_iso3
       (String.append "/indicator/"
          (String.append indicator_code
             (String.append "?format=json&per_page=2000&date="
                (String.append (str_of_int start_year)
                   (String ":" (str_of_int end_year))))))).

(** Line 108: the [file_name] of the download button. *)
Definition file_name (indicator_code : string) (start_year end_year : Z) : string :=
  String.append "macro_viz_"
    (String.append indicator_code
       (String "_"
          (String.append (str_of_int start_year)
             (String "_" (String.append (str_of_int end_year) ".csv"))))).

(** ** Further vocabulary *)

(** The text has no comma. *)
Definition comma_free (s : string) : bool :=
  forallb (λ c, negb (Ascii.eqb c ",")) (String.list_ascii_of_string s).

(** A character that stands between codes: a blank or a comma. *)
Definition separator (c : ascii) : bool := is_space c || Ascii.eqb c ",".

(** A value on which [(v or {}).get(...)] does not raise. *)
Definition falsy_or_dict (v : json) : bool :=
  negb (truthy v) || match v with JDict _ => true | _ => false end.

(** An entry on which lines 37-44 do not raise: a dict whose [country] and
    [indicator] are falsy or dicts and whose [date] is falsy or accepted by
    [int(...)]. *)
Definition entry_ok (int_of_str : string → option Z) (item : json) : bool :=
  match item with
  | JDict d =>
      falsy_or_dict (from_option id JNull (assoc "country" d)) &&
      falsy_or_dict (from_option id JNull (assoc "indicator" d)) &&
      (negb (truthy (from_option id JNull (assoc "date" d))) ||
       is_ok (py_int int_of_str (from_option id JNull (assoc "date" d))))
  | _ => false
  end.

(** A decoded payload from which lines 32-47 return a table: no list of two
    elements or more, or one whose second element is null or a non-empty list
    of entries that are all accepted. *)
Definition payload_ok (int_of_str : string → option Z) (data : json) : bool :=
  match data with
  | JList (_ :: second :: _) =>
      match second with
      | JNull => true
      | JList (item :: items) => forallb (entry_ok int_of_str) (item :: items)
      | _ => false
      end
  | _ => true
  end.

(** A reply from which [fetch_world_bank] returns a table. *)
Definition reply_ok (int_of_str : string → option Z) (resp : response) : bool :=
  match resp with
  | NoReply => false
  | Reply status None => false
  | Reply status (Some data) =>
      negb ((400 <=? status) && (status <? 600)) && payload_ok int_of_str data
  end.

(** The index labels of a table, top to bottom. *)
Definition labels_of (df : DataFrame) : list nat := fst <$> records df.


(** A warning about a failed fetch of one of the countries [cs]. *)
Definition warns_about (cs : list string) (el : element) : Prop :=
  ∃ c e, c ∈ cs ∧ el = StWarning (FetchFailed c e).

(** What [(item.get(key) or {}).get(sub, default)] gives when it does not
    raise: the value under [sub] of the dict under [key], and [default]
    where the entry has no such dict or the dict has no such key. *)
Definition echoed (key sub : string) (default : json) (item : json) : json :=
  match item with
  | JDict d =>
      match assoc key d with
      | Some (JDict d') => from_option id default (assoc sub d')
      | _ => default
      end
  | _ => default
  end.


(** The text is ASCII: every character is below 128. *)
Definition ascii_text (s : string) : bool :=
  forallb (λ c, (nat_of_ascii c <? 128)%nat) (String.list_ascii_of_string s).

(** ** Sorting algorithms

    [sort_values] does not promise an order among rows with equal keys; its
    default algorithm is not stable.  The chain of line 46 is therefore also
    stated for an arbitrary algorithm. *)







(** ** Proof steps *)

(** Case analysis along [fetch_world_bank]: the memo has the table; or it has
    not, and the body returns or raises. *)
Ltac fetch_cases :=
  unfold fetch_world_bank; cbv zeta;
  match goal with
  | |- context [match ?hit with Some _ => _ | None => _ end] =>
      destruct hit eqn:?;
      [ | match goal with
          | |- context [match ?body with Ok _ => _ | Raise _ => _ end] =>
              destruct body eqn:?
          end ]
  end;
  simpl.

(** ** The model on the sample data *)

Example parse_countries_sample :
  parse_countries " deu, bra ,,DEU ," = ["DEU"; "BRA"; "DEU"].
Proof. reflexivity. Qed.

Example int_of_decimal_sample :
  int_of_decimal " -1_000 " = Some (-1000) ∧
  int_of_decimal "1__0" = None ∧
  int_of_decimal "2020Q1" = None.
Proof. by vm_compute. Qed.

Example fetch_body_sample :
  fetch_body int_of_decimal "deu" "SP.POP.TOTL"
    (Reply 200 (Some (sample_payload "DEU" "Germany")))
  = Ok (sample_table "DEU" "Germany").
Proof. by vm_compute. Qed.

(** [[meta, null]] gives the empty table; [[meta, []]] gives a table without
    columns, on which [dropna] raises. *)
Example fetch_body_no_entries :
  fetch_body int_of_decimal "DEU" "SP.POP.TOTL"
    (Reply 200 (Some (JList [sample_meta; JNull]))) = Ok empty_observations ∧
  fetch_body int_of_decimal "DEU" "SP.POP.TOTL"
    (Reply 200 (Some (JList [sample_meta; JList []]))) = Raise KeyError.
Proof. by vm_compute. Qed.

(** Three countries, the second unreachable: one warning, the rows of the
    other two, and three elements rendered. *)
Example main_sample :
  let r := main int_of_decimal sample_service (sample_inputs "DEU,FRA,BRA") fresh in
  let df := Frame true (enumerate (rows_of (sample_table "DEU" "Germany") ++
                                   rows_of (sample_table "BRA" "Brazil"))) in
  r.1 = Continue df ∧
  page r.2 = [Markdown "SP.POP.TOTL";
              StWarning (FetchFailed "FRA" RequestException);
              PlotlyChart df; StDataframe df;
              DownloadButton df "SP.POP.TOTL" 2000 2005] ∧
  net_log r.2 = [("DEU", "SP.POP.TOTL", 2000, 2005);
                 ("FRA", "SP.POP.TOTL", 2000, 2005);
                 ("BRA", "SP.POP.TOTL", 2000, 2005)].
Proof. by vm_compute. Qed.

(** ** Tables: labels, sorting, normalisation *)

Lemma rows_of_imap {A} (g : nat → nat) (l : list A) :
  snd <$> imap (λ i x, (g i, x)) l = l.
Proof.
  revert g. induction l as [|x l IH]; intros g; simpl; [done|].
  f_equal. apply (IH (g ∘ S)).
Qed.

Lemma rows_of_enumerate {A} (l : list A) : snd <$> enumerate l = l.
Proof. apply (rows_of_imap id). Qed.

Lemma year_leb_total a b : year_leb a b = false → year_leb b a = true.
Proof.
  destruct a, b; simpl; try done.
  intros H%Z.leb_gt. apply Z.leb_le. lia.
Qed.

Lemma year_leb_trans a b c :
  year_leb a b = true → year_leb b c = true → year_leb a c = true.
Proof.
  destruct a, b, c; simpl; try done.
  rewrite !Z.leb_le. lia.
Qed.

Lemma insert_by_year_perm x l : Permutation (insert_by_year x l) (x :: l).
Proof.
  induction l as [|y l IH]; simpl; [done|].
  destruct (year_leb _ _); [done|].
  rewrite IH. apply perm_swap.
Qed.

Lemma sort_by_year_perm l : Permutation (sort_by_year l) l.
Proof.
  induction l as [|x l IH]; simpl; [done|].
  rewrite insert_by_year_perm. by constructor.
Qed.

Lemma insert_by_year_sorted x l :
  StronglySorted year_le l → StronglySorted year_le (insert_by_year x l).
Proof.
  induction 1 as [|y l Hs IH Hy]; simpl.
  - repeat constructor.
  - destruct (year_leb (year x.2) (year y.2)) eqn:E.
    + constructor; [by constructor|].
      constructor; [done|].
      eapply Forall_impl; [exact Hy|].
      intros z Hz. eapply year_leb_trans; [exact E|exact Hz].
    + constructor; [done|].
      rewrite insert_by_year_perm. constructor; [|done].
      by apply year_leb_total.
Qed.

Lemma sort_by_year_sorted l : StronglySorted year_le (sort_by_year l).
Proof.
  induction l; simpl; [constructor|]. by apply insert_by_year_sorted.
Qed.

Lemma year_leb_antisym a b :
  year_leb a b = true → year_leb b a = true → a = b.
Proof.
  destruct a, b; simpl; try done.
  rewrite !Z.leb_le. intros. f_equal. lia.
Qed.

(** With pairwise distinct years there is one sorted arrangement only. *)
Lemma sorted_perm_unique (l1 l2 : list (nat * row)) :
  NoDup ((λ r, year r.2) <$> l1) →
  Permutation l1 l2 →
  StronglySorted year_le l1 → StronglySorted year_le l2 → l1 = l2.
Proof.
  revert l2. induction l1 as [|x l1 IH]; intros l2 Hnd Hp Hs1 Hs2.
  - by apply Permutation_nil in Hp.
  - destruct l2 as [|y l2]; [by apply Permutation_sym, Permutation_nil in Hp|].
    apply StronglySorted_inv in Hs1 as [Hs1 Hx].
    apply StronglySorted_inv in Hs2 as [Hs2 Hy].
    rewrite fmap_cons in Hnd. apply NoDup_cons in Hnd as [Hnotin Hnd].
    assert (x = y) as <-.
    { assert (Hxin : x ∈ y :: l2) by (rewrite <- Hp; left).
      assert (Hyin : y ∈ x :: l1) by (rewrite Hp; left).
      apply elem_of_cons in Hxin as [Hxy|Hxin]; [done|].
      apply elem_of_cons in Hyin as [Hyx|Hyin]; [done|].
      rewrite Forall_forall in Hx, Hy.
      exfalso. apply Hnotin.
      rewrite (year_leb_antisym _ _ (Hx _ Hyin) (Hy _ Hxin)).
      apply list_elem_of_fmap. by exists y. }
    f_equal. apply IH; try done. by apply Permutation_cons_inv in Hp.
Qed.

(** So on such a column every sort that returns a sorted permutation agrees
    with [sort_by_year], stable or not. *)
Lemma sort_by_year_canonical (l l' : list (nat * row)) :
  NoDup ((λ r, year r.2) <$> l) →
  Permutation l' l → StronglySorted year_le l' → l' = sort_by_year l.
Proof.
  intros Hnd Hp Hs. apply sorted_perm_unique; try done.
  - by rewrite Hp.
  - by rewrite sort_by_year_perm.
  - apply sort_by_year_sorted.
Qed.


Lemma filter_has_year_Forall (l : list (nat * row)) :
  Forall (λ r, has_year r.2 = true) (filter (λ r, has_year r.2 = true) l).
Proof.
  induction l as [|x l IH]; [constructor|].
  rewrite filter_cons. destruct (decide _); [by constructor|done].
Qed.

Lemma StronglySorted_snd (l : list (nat * row)) :
  StronglySorted year_le l ↔
  StronglySorted (λ a b, year_leb (year a) (year b) = true) (snd <$> l).
Proof.
  split.
  - apply StronglySorted_fmap. by intros x y.
  - induction l as [|x l IH]; simpl; [constructor|].
    intros [Hs Hx]%StronglySorted_inv. constructor; [by apply IH|].
    by apply Forall_fmap in Hx.
Qed.

Lemma has_year_relabel (l : list (nat * row)) :
  Forall (λ r, has_year r.2 = true) l →
  Forall (λ r, has_year r.2 = true) (enumerate (snd <$> l)).
Proof.
  intros H.
  apply (Forall_fmap snd (λ r, has_year r = true)).
  rewrite rows_of_enumerate. by apply Forall_fmap.
Qed.

Lemma year_le_relabel (l : list (nat * row)) :
  StronglySorted year_le l → StronglySorted year_le (enumerate (snd <$> l)).
Proof.
  intros H. apply StronglySorted_snd. rewrite rows_of_enumerate.
  by apply StronglySorted_snd.
Qed.

(** What [normalize] returns, spelled out. *)
Lemma normalize_ok df :
  columns df = true →
  normalize df =
    Ok (Frame true (enumerate (snd <$> sort_by_year
                                 (filter (λ r, has_year r.2 = true) (records df))))).
Proof. intros H. unfold normalize, dropna_year. by rewrite H. Qed.

Lemma normalize_raise df : columns df = false → normalize df = Raise KeyError.
Proof. intros H. unfold normalize, dropna_year. by rewrite H. Qed.

Lemma normalized_has_year df df' :
  normalize df = Ok df' →
  columns df' = true ∧
  Forall (λ r, has_year r.2 = true) (records df') ∧
  StronglySorted year_le (records df').
Proof.
  destruct (columns df) eqn:Hc.
  - rewrite normalize_ok by done. intros [= <-]. simpl. split_and!; [done|..].
    + apply has_year_relabel. rewrite sort_by_year_perm. apply filter_has_year_Forall.
    + apply year_le_relabel, sort_by_year_sorted.
  - by rewrite normalize_raise.
Qed.







(** ** The body of [fetch_world_bank] *)

Lemma bind_ok {A B} (m : result A) (f : A → result B) (b : B) :
  m ≫= f = Ok b → ∃ a, m = Ok a ∧ f a = Ok b.
Proof. destruct m as [a|e]; simpl; [by exists a|done]. Qed.

Lemma mapM_ok {A B} (f : A → result B) (l : list A) (k : list B) :
  mapM f l = Ok k → Forall2 (λ x y, f x = Ok y) l k.
Proof.
  revert k. induction l as [|x l IH]; intros k; simpl.
  - intros [= <-]. constructor.
  - intros (y & Hy & H)%bind_ok. apply bind_ok in H as (k' & Hk' & [= <-]).
    constructor; auto.
Qed.

Lemma py_get_date item v : py_get item "date" = Ok v → v = date_of item.
Proof. destruct item; simpl; congruence. Qed.

Section BodyInversion.

Variable int_of_str : string → option Z.

Lemma build_row_ok c ind item r :
  build_row int_of_str c ind item = Ok r →
  iso3 r = upper c ∧
  nested_get item "indicator" "id" (JStr ind) = Ok (indicator r) ∧
  py_get item "value" = Ok (value r) ∧
  (is_Some (year r) ↔ truthy (date_of item) = true).
Proof.
  unfold build_row.
  intros (d & Hd%py_get_date & H)%bind_ok. subst d.
  apply bind_ok in H as (cty & Hcty & H).
  apply bind_ok in H as (i & Hi & H).
  apply bind_ok in H as (y & Hy & H).
  apply bind_ok in H as (v & Hv & [= <-]). simpl.
  split_and!; [done..|].
  destruct (truthy (date_of item)).
  - destruct (py_int _ _); simplify_eq/=. split; [done|by eexists].
  - simplify_eq/=. split; [by intros [? ?]|done].
Qed.

(** A table comes out of a payload only along these lines: the rows built
    from its entries, those with a year kept, sorted and relabelled. *)
Lemma table_of_payload_ok c ind data df :
  table_of_payload int_of_str c ind data = Ok df →
  ∃ rows,
    Forall2 (λ item r, build_row int_of_str c ind item = Ok r) (entries_of data) rows ∧
    df = Frame true (enumerate (snd <$> sort_by_year
                       (filter (λ r, has_year r.2 = true) (enumerate rows)))).
Proof.
  assert (Hempty : Ok empty_observations = Ok df →
    ∃ rows, Forall2 (λ item r, build_row int_of_str c ind item = Ok r) [] rows ∧
      df = Frame true (enumerate (snd <$> sort_by_year
                         (filter (λ r, has_year r.2 = true) (enumerate rows))))).
  { intros [= <-]. exists []. split; [constructor|done]. }
  unfold table_of_payload.
  destruct data as [| | | | | | |l|]; try exact Hempty.
  destruct l as [|meta [|second rest]]; try exact Hempty.
  unfold rows_to_table.
  destruct second as [| | | | | |s|items|d]; simpl; try exact Hempty; try done.
  - (* a string: its characters are no dicts; without characters, no columns *)
    intros (rows & Hrows & H)%bind_ok.
    destruct (String.list_ascii_of_string s); [|done].
    simpl in Hrows. by injection Hrows as <-.
  - (* a list of entries *)
    intros (rows & Hrows & H)%bind_ok. exists rows. split; [by apply mapM_ok|].
    destruct rows as [|r rows]; [done|].
    rewrite normalize_ok in H by done. by injection H as <-.
  - (* a dict: its keys are no dicts; without keys, no columns *)
    intros (rows & Hrows & H)%bind_ok.
    destruct d; [|done].
    simpl in Hrows. by injection Hrows as <-.
Qed.

Lemma fetch_body_ok c ind resp df :
  fetch_body int_of_str c ind resp = Ok df →
  ∃ status data, resp = Reply status (Some data) ∧
    raise_for_status status = Ok () ∧
    table_of_payload int_of_str c ind data = Ok df.
Proof.
  destruct resp as [|status [data|]]; simpl; [done|..].
  - intros (u & Hu & H)%bind_ok. destruct u. by exists status, data.
  - intros (u & Hu & H)%bind_ok. done.
Qed.

End BodyInversion.

Lemma rows_of_filter_imap (P : row → Prop) (Q : nat * row → Prop)
    `{!∀ r, Decision (P r)} `{!∀ r, Decision (Q r)} (g : nat → nat) l :
  (∀ r, Q r ↔ P r.2) →
  snd <$> filter Q (imap (λ i x, (g i, x)) l) = filter P l.
Proof.
  intros HQ. revert g. induction l as [|x l IH]; intros g; simpl; [done|].
  rewrite !filter_cons. specialize (HQ (g 0%nat, x)). simpl in HQ.
  destruct (decide (P x)), (decide (Q _)); try tauto; simpl; [f_equal|];
    apply (IH (g ∘ S)).
Qed.

Lemma rows_of_filter_enumerate (rows : list row) :
  snd <$> filter (λ r : nat * row, has_year r.2 = true) (enumerate rows)
  = filter (λ r, has_year r = true) rows.
Proof. by apply (rows_of_filter_imap _ _ id). Qed.

Lemma Forall2_filter_both {A B} (R : A → B → Prop) (P : A → Prop) (Q : B → Prop)
    `{!∀ x, Decision (P x)} `{!∀ y, Decision (Q y)} l k :
  Forall2 (λ x y, R x y ∧ (Q y ↔ P x)) l k →
  Forall2 (λ x y, R x y ∧ Q y) (filter P l) (filter Q k).
Proof.
  induction 1 as [|x y l k [HR HPQ] _ IH]; [constructor|].
  rewrite !filter_cons.
  destruct (decide (P x)), (decide (Q y)); try tauto. by constructor.
Qed.

Lemma has_year_is_Some r : has_year r = true ↔ is_Some (year r).
Proof.
  unfold has_year. destruct (year r); split; done.
Qed.

(** C1 (amended): the rows of a returned table are, up to their order, the
    rows built from the payload entries whose [date] is truthy; every such
    row has a year and carries the entry's [value] as it is, null included.
    Entries whose [date] is absent, null, empty or zero leave no row. *)
Theorem fetch_keeps_truthy_dates int_of_str c ind status data df :
  fetch_body int_of_str c ind (Reply status (Some data)) = Ok df →
  ∃ kept,
    Forall2 (λ item r, build_row int_of_str c ind item = Ok r ∧
                       is_Some (year r) ∧
                       py_get item "value" = Ok (value r))
      (filter (λ item, truthy (date_of item) = true) (entries_of data)) kept ∧
    Permutation (rows_of df) kept.
Proof.
  intros (st & d & [= <- <-] & _ & H)%fetch_body_ok.
  apply table_of_payload_ok in H as (rows & Hrows & ->).
  exists (filter (λ r, has_year r = true) rows). split.
  - eapply Forall2_impl.
    + apply (Forall2_filter_both
               (λ item r, build_row int_of_str c ind item = Ok r ∧
                          py_get item "value" = Ok (value r))).
      eapply Forall2_impl; [exact Hrows|]. intros item r Hr. simpl.
      destruct (build_row_ok _ _ _ _ _ Hr) as (_ & _ & Hv & Hy).
      by rewrite has_year_is_Some.
    + simpl. intros item r [[Hr Hv] Hy%has_year_is_Some]. done.
  - unfold rows_of. simpl. rewrite rows_of_enumerate.
    by rewrite sort_by_year_perm, rows_of_filter_enumerate.
Qed.

Lemma ascending_of_sorted (l : list (nat * row)) :
  Forall (λ r, has_year r.2 = true) l →
  StronglySorted year_le l →
  ∃ ys : list Z, year <$> (snd <$> l) = Some <$> ys ∧ StronglySorted Z.le ys.
Proof.
  induction l as [|[i r] l IH]; intros Hy Hs.
  - exists []. split; [done|constructor].
  - apply Forall_cons in Hy as [Hr Hy].
    apply StronglySorted_inv in Hs as [Hs Hle].
    destruct (IH Hy Hs) as (ys & Hys & Hsorted).
    apply has_year_is_Some in Hr as [y Hyr]. simpl in Hyr.
    exists (y :: ys). split; [rewrite !fmap_cons, Hys; simpl; by rewrite Hyr|].
    constructor; [done|].
    assert (Hall : Forall (λ o, year_leb (Some y) o = true) (Some <$> ys)).
    { rewrite <- Hys, <- list_fmap_compose. apply Forall_fmap.
      eapply Forall_impl; [exact Hle|]. intros r'. unfold year_le. simpl.
      by rewrite Hyr. }
    apply Forall_fmap in Hall. eapply Forall_impl; [exact Hall|].
    intros z. simpl. apply Z.leb_le.
Qed.

Lemma nested_get_ok item key sub default v :
  nested_get item key sub default = Ok v →
  v = default ∨
  ∃ d d', item = JDict d ∧ assoc key d = Some (JDict d') ∧ assoc sub d' = Some v.
Proof.
  unfold nested_get. intros (x & Hx & H)%bind_ok.
  destruct item as [| | | | | | | |d]; try done. simpl in Hx. injection Hx as <-.
  unfold or_empty_dict in H.
  destruct (assoc key d) as [x|] eqn:Hk; simpl in H.
  - destruct (truthy x) eqn:Ht.
    + destruct x as [| | | | | | | |d']; try done. simpl in H.
      destruct (assoc sub d') as [w|] eqn:Hs; simpl in H; injection H as <-.
      * right. by exists d, d'.
      * by left.
    + simpl in H. injection H as <-. by left.
  - simpl in H. injection H as <-. by left.
Qed.

Lemma Forall2_elem_of_r {A B} (R : A → B → Prop) l k y :
  Forall2 R l k → y ∈ k → ∃ x, x ∈ l ∧ R x y.
Proof.
  induction 1 as [|x y' l k HR _ IH]; [by intros ?%elem_of_nil|].
  intros [->|Hy]%elem_of_cons.
  - exists x. split; [left|done].
  - destruct (IH Hy) as (x' & Hx' & HR'). exists x'. split; [by right|done].
Qed.

Section BodyRows.

Variable int_of_str : string → option Z.

(** The anatomy of a returned table. *)
Lemma fetch_body_rows c ind resp df :
  fetch_body int_of_str c ind resp = Ok df →
  ∃ status data rows,
    resp = Reply status (Some data) ∧
    Forall2 (λ item r, build_row int_of_str c ind item = Ok r) (entries_of data) rows ∧
    Permutation (rows_of df) (filter (λ r, has_year r = true) rows) ∧
    columns df = true ∧
    ascending_by_year df.
Proof.
  intros (status & data & -> & _ & H)%fetch_body_ok.
  apply table_of_payload_ok in H as (rows & Hrows & ->).
  exists status, data, rows. split_and!; try done.
  - unfold rows_of. simpl. rewrite rows_of_enumerate.
    by rewrite sort_by_year_perm, rows_of_filter_enumerate.
  - unfold ascending_by_year, rows_of. simpl. rewrite rows_of_enumerate.
    apply ascending_of_sorted; [|apply sort_by_year_sorted].
    rewrite sort_by_year_perm. apply filter_has_year_Forall.
Qed.

(** Every row of a returned table was built from an entry of the payload. *)
Lemma fetch_body_row_origin c ind status data df r :
  fetch_body int_of_str c ind (Reply status (Some data)) = Ok df →
  r ∈ rows_of df →
  ∃ item, item ∈ entries_of data ∧ build_row int_of_str c ind item = Ok r.
Proof.
  intros (st & d & rows & [= <- <-] & Hrows & Hperm & _)%fetch_body_rows Hr.
  rewrite Hperm in Hr. apply list_elem_of_filter in Hr as [_ Hr].
  by apply (Forall2_elem_of_r _ _ _ _ Hrows).
Qed.

Lemma fetch_body_iso3 c ind resp df :
  fetch_body int_of_str c ind resp = Ok df →
  Forall (λ r, iso3 r = upper c) (rows_of df).
Proof.
  intros H. destruct (fetch_body_ok _ _ _ _ _ H) as (st & d & -> & _).
  apply Forall_forall. intros r Hr.
  destruct (fetch_body_row_origin _ _ _ _ _ _ H Hr) as (item & _ & Hb).
  by apply build_row_ok in Hb as [? _].
Qed.

End BodyRows.

Lemma nested_get_echoed item key sub default v :
  nested_get item key sub default = Ok v → v = echoed key sub default item.
Proof.
  unfold nested_get, echoed. intros (x & Hx & H)%bind_ok.
  destruct item as [| | | | | | | |d]; try done. simpl in Hx. injection Hx as <-.
  unfold or_empty_dict in H.
  destruct (assoc key d) as [x|] eqn:Hk; simpl in H.
  - destruct (truthy x) eqn:Ht.
    + destruct x as [| | | | | | | |d']; try done. simpl in H. by injection H as <-.
    + simpl in H. injection H as <-.
      destruct x as [| | | | | | | |[|p d']]; try done.
  - simpl in H. by injection H as <-.
Qed.

(** What lines 37-44 write into the row of an entry. *)
Lemma build_row_spec int_of_str c ind item r :
  build_row int_of_str c ind item = Ok r →
  iso3 r = upper c ∧
  country r = echoed "country" "value" (JStr (upper c)) item ∧
  indicator r = echoed "indicator" "id" (JStr ind) item ∧
  py_get item "value" = Ok (value r) ∧
  (year r = None ∧ truthy (date_of item) = false ∨
   ∃ y, truthy (date_of item) = true ∧
        py_int int_of_str (date_of item) = Ok y ∧ year r = Some y).
Proof.
  unfold build_row.
  intros (d & Hd%py_get_date & H)%bind_ok. subst d.
  apply bind_ok in H as (cty & Hcty%nested_get_echoed & H).
  apply bind_ok in H as (i & Hi%nested_get_echoed & H).
  apply bind_ok in H as (y & Hy & H).
  apply bind_ok in H as (v & Hv & [= <-]). simpl. split_and!; [done..|].
  destruct (truthy (date_of item)).
  - destruct (py_int _ _) as [n|]; simplify_eq/=. right. by exists n.
  - simplify_eq/=. by left.
Qed.

(** The rows of a returned table, lined up with the entries they come
    from: the entries with a truthy date, in payload order. *)
Lemma fetch_body_kept int_of_str c ind status data df :
  fetch_body int_of_str c ind (Reply status (Some data)) = Ok df →
  ∃ kept,
    Forall2 (λ item r, build_row int_of_str c ind item = Ok r ∧ is_Some (year r))
      (filter (λ item, truthy (date_of item) = true) (entries_of data)) kept ∧
    Permutation (rows_of df) kept.
Proof.
  intros (st & d & [= <- <-] & _ & H)%fetch_body_ok.
  apply table_of_payload_ok in H as (rows & Hrows & ->).
  exists (filter (λ r, has_year r = true) rows). split.
  - eapply Forall2_impl.
    + apply (Forall2_filter_both
               (λ item r, build_row int_of_str c ind item = Ok r)).
      eapply Forall2_impl; [exact Hrows|]. intros item r Hr. simpl.
      destruct (build_row_ok _ _ _ _ _ Hr) as (_ & _ & _ & Hy).
      by rewrite has_year_is_Some.
    + simpl. intros item r [Hr Hy%has_year_is_Some]. done.
  - unfold rows_of. simpl. rewrite rows_of_enumerate.
    by rewrite sort_by_year_perm, rows_of_filter_enumerate.
Qed.

(** C3 (amended): every row of a returned table has the requested country
    code, uppercased, as its [iso3].  Its [indicator] is the [id] that the
    [indicator] object of its own entry carries (the entry its year and its
    value come from), and the requested code when that entry carries none. *)
Theorem fetch_rows_iso3_indicator int_of_str c ind status data df :
  fetch_body int_of_str c ind (Reply status (Some data)) = Ok df →
  Forall (λ r, iso3 r = upper c) (rows_of df) ∧
  ∃ kept,
    Forall2 (λ item r,
               indicator r = echoed "indicator" "id" (JStr ind) item ∧
               (∃ y, py_int int_of_str (date_of item) = Ok y ∧ year r = Some y) ∧
               py_get item "value" = Ok (value r))
      (filter (λ item, truthy (date_of item) = true) (entries_of data)) kept ∧
    Permutation (rows_of df) kept.
Proof.
  intros H. split; [by eapply fetch_body_iso3|].
  destruct (fetch_body_kept _ _ _ _ _ _ H) as (kept & Hkept & Hperm).
  exists kept. split; [|done].
  eapply Forall2_impl; [exact Hkept|]. intros item r [Hr [y Hy]]. simpl.
  destruct (build_row_spec _ _ _ _ _ Hr) as (_ & _ & Hind & Hv & Hyear).
  split_and!; [done| |done].
  destruct Hyear as [[Hnone _]|(y' & _ & Hint & Hsome)]; [congruence|].
  by exists y'.
Qed.

(** ** The memoised call and the loop *)

Section Run.

Variable int_of_str : string → option Z.
Variable service : nat → request → response.

#[local] Abbreviation fetch := (fetch_world_bank int_of_str service).
#[local] Abbreviation loop := (fetch_loop int_of_str service).
#[local] Abbreviation calls := (fetch_all int_of_str service).

Lemma fetch_hit c ind s e rt df :
  cache rt !! ((c, ind, s, e) : request) = Some df →
  fetch c ind s e rt = (Ok df, rt).
Proof. intros H. unfold fetch_world_bank; cbv zeta. by rewrite H. Qed.

Lemma fetch_miss c ind s e rt :
  cache rt !! ((c, ind, s, e) : request) = None →
  fetch c ind s e rt =
    let rq : request := (c, ind, s, e) in
    let log := net_log rt ++ [rq] in
    match fetch_body int_of_str c ind (service (length (net_log rt)) rq) with
    | Ok df => (Ok df, Runtime log (<[rq := df]> (cache rt)) (page rt))
    | Raise err => (Raise err, Runtime log (cache rt) (page rt))
    end.
Proof. intros H. unfold fetch_world_bank; cbv zeta. by rewrite H. Qed.

(** The call neither reads nor writes the page. *)
Lemma fetch_set_page c ind s e p rt :
  fetch c ind s e (set_page p rt) =
    ((fetch c ind s e rt).1, set_page p (fetch c ind s e rt).2).
Proof.
  destruct (cache rt !! ((c, ind, s, e) : request)) eqn:Hl.
  - rewrite (fetch_hit c ind s e rt _ Hl). by apply fetch_hit.
  - rewrite (fetch_miss c ind s e rt Hl), fetch_miss by done. cbv zeta. simpl.
    by destruct (fetch_body _ _ _ _).
Qed.

Lemma fetch_page c ind s e rt : page (fetch c ind s e rt).2 = page rt.
Proof. fetch_cases; done. Qed.

(** A returned table came out of the body, and so does what is stored. *)
Lemma fetch_sound c ind s e rt :
  cache_sound int_of_str (cache rt) →
  cache_sound int_of_str (cache (fetch c ind s e rt).2) ∧
  ∀ df, (fetch c ind s e rt).1 = Ok df →
        ∃ resp, fetch_body int_of_str c ind resp = Ok df.
Proof.
  intros Hc. fetch_cases.
  - split; [done|]. intros ? [= <-]. by eapply Hc.
  - split; [|intros ? [= <-]; by eexists].
    intros c' ind' s' e' df' Hl'.
    destruct (decide (((c, ind, s, e) : request) = (c', ind', s', e'))) as [Heq|Hne].
    + injection Heq as <- <- <- <-. rewrite lookup_insert_eq in Hl'.
      injection Hl' as <-. by eexists.
    + rewrite lookup_insert_ne in Hl' by done. by eapply Hc.
  - split; [done|]. by intros.
Qed.

(** Entries of the memo table stay as they are. *)
Lemma fetch_cache_mono c ind s e rt rq df :
  cache rt !! rq = Some df → cache (fetch c ind s e rt).2 !! rq = Some df.
Proof.
  intros H. fetch_cases; try done.
  rewrite lookup_insert_ne; [done|]. intros <-. congruence.
Qed.

(** A returned table is in the memo table afterwards. *)
Lemma fetch_stores c ind s e rt df :
  (fetch c ind s e rt).1 = Ok df →
  cache (fetch c ind s e rt).2 !! ((c, ind, s, e) : request) = Some df.
Proof.
  fetch_cases; try done.
  - congruence.
  - intros [= <-]. apply lookup_insert_eq.
Qed.

Lemma calls_cons ind s e c rest rt :
  calls ind s e (c :: rest) rt =
    ((c, (fetch c ind s e rt).1) :: (calls ind s e rest (fetch c ind s e rt).2).1,
     (calls ind s e rest (fetch c ind s e rt).2).2).
Proof.
  simpl. destruct (fetch c ind s e rt) as [r rt']. simpl.
  by destruct (calls ind s e rest rt').
Qed.

Lemma calls_app ind s e l1 l2 rt :
  calls ind s e (l1 ++ l2) rt =
    ((calls ind s e l1 rt).1 ++ (calls ind s e l2 (calls ind s e l1 rt).2).1,
     (calls ind s e l2 (calls ind s e l1 rt).2).2).
Proof.
  revert rt. induction l1 as [|c l1 IH]; intros rt.
  - simpl. by destruct (calls ind s e l2 rt).
  - rewrite <- app_comm_cons, !calls_cons, IH. done.
Qed.

Lemma calls_countries ind s e cs rt : fst <$> (calls ind s e cs rt).1 = cs.
Proof.
  revert rt. induction cs as [|c cs IH]; intros rt; [done|].
  rewrite calls_cons. simpl. by rewrite IH.
Qed.

Lemma calls_set_page ind s e cs p rt :
  calls ind s e cs (set_page p rt) =
    ((calls ind s e cs rt).1, set_page p (calls ind s e cs rt).2).
Proof.
  revert rt. induction cs as [|c cs IH]; intros rt; [done|].
  rewrite !calls_cons, fetch_set_page. simpl. by rewrite IH.
Qed.

Lemma calls_sound ind s e cs rt :
  cache_sound int_of_str (cache rt) →
  cache_sound int_of_str (cache (calls ind s e cs rt).2) ∧
  Forall (λ o, ∀ df, o.2 = Ok df → ∃ resp, fetch_body int_of_str o.1 ind resp = Ok df)
         (calls ind s e cs rt).1.
Proof.
  revert rt. induction cs as [|c cs IH]; intros rt Hc.
  - split; [done|constructor].
  - rewrite calls_cons. simpl.
    destruct (fetch_sound c ind s e rt Hc) as [Hc' Hok].
    destruct (IH _ Hc') as [Hc'' Hall]. split; [done|]. by constructor.
Qed.

Lemma calls_cache_mono ind s e cs rt rq df :
  cache rt !! rq = Some df → cache (calls ind s e cs rt).2 !! rq = Some df.
Proof.
  revert rt. induction cs as [|c cs IH]; intros rt H; [done|].
  rewrite calls_cons. simpl. by apply IH, fetch_cache_mono.
Qed.

(** The loop is the fold of its calls: the tables of the calls that
    returned, a warning for each call that raised, nothing else. *)
Lemma loop_calls ind s e cs frames rt :
  loop ind s e cs frames rt =
    (Continue (frames ++ successes (calls ind s e cs rt).1),
     set_page (page rt ++ warnings (calls ind s e cs rt).1) (calls ind s e cs rt).2).
Proof.
  revert frames rt. induction cs as [|c cs IH]; intros frames rt.
  - simpl. unfold mret, script_ret, set_page. rewrite !app_nil_r. by destruct rt.
  - rewrite calls_cons. cbn [fetch_loop].
    destruct (fetch c ind s e rt) as [[df|err] rt'] eqn:Hf; simpl.
    + rewrite IH. unfold successes, warnings. simpl.
      rewrite <- (app_assoc frames [df]). simpl.
      replace (page rt') with (page rt); [done|].
      by rewrite <- (fetch_page c ind s e rt), Hf.
    + unfold mbind, script_bind, show. simpl.
      change (Runtime (net_log rt') (cache rt') (page rt' ++ [StWarning (FetchFailed c err)]))
        with (set_page (page rt' ++ [StWarning (FetchFailed c err)]) rt').
      rewrite IH, calls_set_page. simpl. unfold successes, warnings. simpl.
      rewrite <- (app_assoc _ [_]). simpl.
      replace (page rt') with (page rt); [done|].
      by rewrite <- (fetch_page c ind s e rt), Hf.
Qed.

End Run.

(** ** Strings *)

Lemma upper_ascii_idem c : upper_ascii (upper_ascii c) = upper_ascii c.
Proof. destruct c as [[] [] [] [] [] [] [] []]; reflexivity. Qed.

Lemma upper_idem s : upper (upper s) = upper s.
Proof. induction s as [|c s IH]; simpl; [done|]. by rewrite upper_ascii_idem, IH. Qed.

Lemma split_comma_nonempty s : split_comma s ≠ [].
Proof.
  destruct s as [|c s]; simpl; [done|].
  destruct (Ascii.eqb c ","); [done|]. by destruct (split_comma s).
Qed.

Lemma split_comma_app s1 s2 :
  split_comma (String.append s1 (String "," s2)) = split_comma s1 ++ split_comma s2.
Proof.
  induction s1 as [|c s1 IH]; [done|].
  simpl. rewrite IH.
  destruct (Ascii.eqb c ","); [done|].
  pose proof (split_comma_nonempty s1). by destruct (split_comma s1).
Qed.

(** Every token between commas is parsed on its own and kept in its place. *)
Lemma parse_countries_app s1 s2 :
  parse_countries (String.append s1 (String "," s2))
  = parse_countries s1 ++ parse_countries s2.
Proof.
  unfold parse_countries. by rewrite split_comma_app, filter_app, fmap_app.
Qed.

Lemma parse_countries_upper text c : c ∈ parse_countries text → upper c = c.
Proof.
  unfold parse_countries. intros (tok & -> & _)%list_elem_of_fmap.
  apply upper_idem.
Qed.

(** ** Tables of the loop *)

Lemma rows_of_combine frames :
  rows_of (combine frames) = concat (rows_of <$> frames).
Proof.
  destruct frames as [|df frames]; [done|].
  unfold combine, pd_concat, rows_of. cbn [records].
  rewrite rows_of_enumerate.
  generalize (df :: frames). intros l.
  induction l as [|x l IH]; [done|]. simpl. rewrite fmap_app. f_equal. exact IH.
Qed.

Lemma successes_app o1 o2 : successes (o1 ++ o2) = successes o1 ++ successes o2.
Proof. apply omap_app. Qed.

Lemma successes_rows_empty outs :
  Forall (λ o, failed_or_empty o = true) outs →
  concat (rows_of <$> successes outs) = [].
Proof.
  induction 1 as [|[c [df|err]] outs Ho _ IH]; [done| |exact IH].
  change (rows_of df ++ concat (rows_of <$> successes outs) = []).
  rewrite IH, app_nil_r.
  apply bool_decide_eq_true in Ho. simpl in Ho. unfold rows_of. by rewrite Ho.
Qed.

Lemma combine_empty outs :
  Forall (λ o, failed_or_empty o = true) outs →
  df_empty (combine (successes outs)) = true.
Proof.
  intros H%successes_rows_empty. rewrite <- rows_of_combine in H.
  unfold df_empty. apply orb_true_iff. right. apply bool_decide_eq_true.
  by apply fmap_nil_inv in H.
Qed.

Section Main.

Variable int_of_str : string → option Z.
Variable service : nat → request → response.

#[local] Abbreviation fetch := (fetch_world_bank int_of_str service).
#[local] Abbreviation loop := (fetch_loop int_of_str service).
#[local] Abbreviation calls := (fetch_all int_of_str service).

(** The script on inputs that pass validation. *)
Lemma main_valid i rt :
  run i = true →
  (1 ≤ length (parse_countries (countries_text i)) ≤ 15)%nat →
  main int_of_str service i rt =
    let code := INDICATORS (indicator_choice i) in
    let r := calls code (start_year i) (end_year i) (parse_countries (countries_text i)) rt in
    let df := combine (successes r.1) in
    if df_empty df
    then (Stopped,
          set_page (page rt ++ Markdown code :: warnings r.1 ++ [StWarning NoData]) r.2)
    else (Continue df,
          set_page (page rt ++ Markdown code :: warnings r.1 ++
                      [PlotlyChart df; StDataframe df;
                       DownloadButton df code (start_year i) (end_year i)]) r.2).
Proof.
  intros Hrun Hlen. unfold main. cbv zeta.
  unfold mbind at 1, script_bind at 1. cbn [show].
  rewrite Hrun.
  rewrite bool_decide_eq_false_2 by lia.
  rewrite bool_decide_eq_false_2 by lia.
  unfold mbind, script_bind, mret, script_ret. simpl.
  match goal with |- context [fetch_loop _ _ _ _ _ _ _ ?r] =>
    change r with (set_page (page rt ++ [Markdown (INDICATORS (indicator_choice i))]) rt) end.
  rewrite loop_calls, calls_set_page. simpl.
  destruct (df_empty _); simpl; unfold set_page; simpl;
    rewrite <- ?app_assoc; reflexivity.
Qed.

(** The script on inputs that fail validation. *)
Lemma main_invalid i rt :
  run i = true →
  (length (parse_countries (countries_text i)) = 0 ∨
   15 < length (parse_countries (countries_text i)))%nat →
  ∃ m, (m = NoCountries ∨ m = TooManyCountries) ∧
    main int_of_str service i rt =
      (Stopped,
       set_page (page rt ++ [Markdown (INDICATORS (indicator_choice i)); StError m]) rt).
Proof.
  intros Hrun Hlen. unfold main. cbv zeta.
  unfold mbind at 1, script_bind at 1. cbn [show]. rewrite Hrun.
  destruct Hlen as [H0|H15].
  - exists NoCountries. split; [by left|].
    rewrite (bool_decide_eq_true_2 (length _ = 0%nat)) by done.
    unfold mbind, script_bind, mret, script_ret, st_stop, set_page. simpl.
    by rewrite <- app_assoc.
  - exists TooManyCountries. split; [by right|].
    rewrite (bool_decide_eq_false_2 (length _ = 0%nat)) by lia.
    rewrite (bool_decide_eq_true_2 (15 < length _)%nat) by done.
    unfold mbind, script_bind, mret, script_ret, st_stop, set_page. simpl.
    by rewrite <- app_assoc.
Qed.

(** The script before "Load data" is pressed. *)
Lemma main_idle i rt :
  run i = false →
  main int_of_str service i rt =
    (Stopped,
     set_page (page rt ++ [Markdown (INDICATORS (indicator_choice i));
                           StInfo ConfigureInputs]) rt).
Proof.
  intros Hrun. unfold main. cbv zeta.
  unfold mbind at 1, script_bind at 1. cbn [show]. rewrite Hrun.
  unfold mbind, script_bind, mret, script_ret, st_stop, set_page. simpl.
  by rewrite <- app_assoc.
Qed.

(** Soundness of the memo table is an invariant of the process: it holds
    of the empty table and every execution of the script keeps it. *)
Lemma main_cache_sound i rt :
  cache_sound int_of_str (cache rt) →
  cache_sound int_of_str (cache (main int_of_str service i rt).2).
Proof.
  intros Hc. destruct (run i) eqn:Hrun; [|by rewrite main_idle].
  destruct (decide (1 ≤ length (parse_countries (countries_text i)) ≤ 15)%nat)
    as [Hlen|Hlen].
  - rewrite main_valid by done. cbv zeta.
    destruct (df_empty _); simpl; by apply calls_sound.
  - destruct (main_invalid i rt Hrun) as (m & _ & ->); [lia|done].
Qed.

End Main.

Lemma cache_sound_empty int_of_str : cache_sound int_of_str ∅.
Proof. intros c ind s e df H. by rewrite lookup_empty in H. Qed.

Lemma elem_of_concat {A} (x : A) (ls : list (list A)) :
  x ∈ concat ls ↔ ∃ l, l ∈ ls ∧ x ∈ l.
Proof.
  induction ls as [|l ls IH]; simpl.
  - split; [by intros ?%elem_of_nil|by intros (? & ?%elem_of_nil & _)].
  - rewrite elem_of_app, IH. split.
    + intros [H|(l' & Hl' & Hx)]; [exists l; split; [left|done]|].
      exists l'. split; [by right|done].
    + intros (l' & [->|Hl']%elem_of_cons & Hx); [by left|]. right. by exists l'.
Qed.

Lemma successes_cons_ok c df outs :
  successes ((c, Ok df) :: outs) = df :: successes outs.
Proof. done. Qed.

Lemma elem_of_successes outs df :
  df ∈ successes outs ↔ ∃ c, (c, Ok df) ∈ outs.
Proof.
  unfold successes. rewrite list_elem_of_omap. split.
  - intros ([c [df'|err]] & Hin & H); simplify_eq/=. by exists c.
  - intros (c & Hin). by exists (c, Ok df).
Qed.

Lemma elem_of_warnings outs c err :
  (c, Raise err) ∈ outs → StWarning (FetchFailed c err) ∈ warnings outs.
Proof.
  intros H. unfold warnings. apply list_elem_of_omap. by exists (c, Raise err).
Qed.

Section Claims.

Variable int_of_str : string → option Z.
Variable service : nat → request → response.

#[local] Abbreviation fetch := (fetch_world_bank int_of_str service).
#[local] Abbreviation loop := (fetch_loop int_of_str service).
#[local] Abbreviation calls := (fetch_all int_of_str service).

(** C2 (amended): a fetch that raises is caught per country.  When the GET
    gets no response, a 4xx or 5xx status, a body that is not JSON, or a
    payload on which the normalisation raises, the call raises; the loop
    then shows a warning naming that country, adds no table for this call
    and goes on with the remaining countries. *)
Theorem failed_fetch_warns ind s e c rest frames rt :
  let rq : request := (c, ind, s, e) in
  let resp := service (length (net_log rt)) rq in
  cache rt !! rq = None →
  (resp = NoReply ∨
   (∃ status body, resp = Reply status body ∧ 400 ≤ status < 600) ∨
   (∃ status, resp = Reply status None) ∨
   (∃ status data, resp = Reply status (Some data) ∧
                   is_ok (table_of_payload int_of_str c ind data) = false)) →
  ∃ err,
    fetch c ind s e rt = (Raise err, Runtime (net_log rt ++ [rq]) (cache rt) (page rt)) ∧
    loop ind s e (c :: rest) frames rt =
      loop ind s e rest frames
        (Runtime (net_log rt ++ [rq]) (cache rt)
           (page rt ++ [StWarning (FetchFailed c err)])).
Proof.
  intros rq resp Hmiss Hfail.
  assert (∃ err, fetch_body int_of_str c ind resp = Raise err) as [err Herr].
  { destruct Hfail as [->|[(st & b & -> & Hst)|[(st & ->)|(st & d & -> & Hd)]]]; simpl.
    - by eexists.
    - unfold raise_for_status.
      replace ((400 <=? st) && (st <? 600)) with true; [by eexists|].
      symmetry. apply andb_true_iff. split; [apply Z.leb_le|apply Z.ltb_lt]; lia.
    - destruct (raise_for_status st) as [[]|err]; by eexists.
    - destruct (raise_for_status st) as [[]|err]; simpl; [|by eexists].
      destruct (table_of_payload _ _ _ _); [done|by eexists]. }
  exists err.
  assert (Hf : fetch c ind s e rt =
                (Raise err, Runtime (net_log rt ++ [rq]) (cache rt) (page rt))).
  { rewrite fetch_miss by done. cbv zeta. fold rq resp. by rewrite Herr. }
  split; [done|]. cbn [fetch_loop]. by rewrite Hf.
Qed.

(** C4: the loop is a partial-failure fold.  Every country of the list is
    fetched, whatever earlier fetches did; every call that raised leaves a
    warning naming its country; and the combined table has exactly the rows
    of the tables of the calls that returned, in call order. *)
Theorem partial_failure_fold ind s e countries rt :
  let r := calls ind s e countries rt in
  loop ind s e countries [] rt =
    (Continue (successes r.1), set_page (page rt ++ warnings r.1) r.2) ∧
  fst <$> r.1 = countries ∧
  rows_of (combine (successes r.1)) = concat (rows_of <$> successes r.1) ∧
  (∀ c err, (c, Raise err) ∈ r.1 → StWarning (FetchFailed c err) ∈ warnings r.1) ∧
  (∀ x, x ∈ rows_of (combine (successes r.1)) ↔
        ∃ c df, (c, Ok df) ∈ r.1 ∧ x ∈ rows_of df).
Proof.
  intros r. split_and!.
  - apply loop_calls.
  - apply calls_countries.
  - apply rows_of_combine.
  - intros c err. apply elem_of_warnings.
  - intros x. rewrite rows_of_combine, elem_of_concat. split.
    + intros (l & (df & -> & Hdf)%list_elem_of_fmap & Hx).
      apply elem_of_successes in Hdf as [c Hc]. by exists c, df.
    + intros (c & df & Hin & Hx). exists (rows_of df). split; [|done].
      apply list_elem_of_fmap. exists df. split; [done|].
      apply elem_of_successes. by exists c.
Qed.

(** C5: when "Load data" is pressed and the parsed country list is empty
    or has more than 15 codes, the script shows a blocking error and stops
    there: the page gains the source line and the error only, and the log
    of GETs and the memo table are as before, so no fetch was attempted. *)
Theorem invalid_input_halts i rt :
  let code := INDICATORS (indicator_choice i) in
  let countries := parse_countries (countries_text i) in
  run i = true →
  (length countries = 0 ∨ 15 < length countries)%nat →
  ∃ m, (m = NoCountries ∨ m = TooManyCountries) ∧
    main int_of_str service i rt =
      (Stopped, set_page (page rt ++ [Markdown code; StError m]) rt) ∧
    net_log (main int_of_str service i rt).2 = net_log rt.
Proof.
  intros code countries Hrun Hlen.
  destruct (main_invalid int_of_str service i rt Hrun Hlen) as (m & Hm & Hmain).
  exists m. split_and!; [done..|]. by rewrite Hmain.
Qed.

(** C6: when every fetch of an execution raised or returned a table
    without rows, the combined table is empty and the script stops with the
    "No data" warning; chart, table view and download button are not shown. *)
Theorem empty_result_halts i rt :
  let code := INDICATORS (indicator_choice i) in
  let countries := parse_countries (countries_text i) in
  let r := calls code (start_year i) (end_year i) countries rt in
  run i = true →
  (1 ≤ length countries ≤ 15)%nat →
  Forall (λ o, failed_or_empty o = true) r.1 →
  df_empty (combined_table int_of_str service i rt) = true ∧
  main int_of_str service i rt =
    (Stopped,
     set_page (page rt ++ Markdown code :: warnings r.1 ++ [StWarning NoData]) r.2) ∧
  Forall (λ el, is_render el = false)
         (Markdown code :: warnings r.1 ++ [StWarning NoData]).
Proof.
  intros code countries r Hrun Hlen Hall.
  pose proof (combine_empty _ Hall) as Hempty. split_and!.
  - exact Hempty.
  - rewrite main_valid by done. cbv zeta. fold code countries r.
    by rewrite Hempty.
  - constructor; [done|]. apply Forall_app. split; [|by repeat constructor].
    unfold warnings. apply Forall_forall.
    intros el ([c [df|err]] & _ & H)%list_elem_of_omap; simplify_eq/=. done.
Qed.

(** C7: a returned table is sorted by year, ascending, every row having
    one; and the result is determined by the arguments and the payload: any
    other call with the same arguments that finds the same memo entry and
    gets the same reply returns the same table. *)
Theorem fetch_sorted_deterministic c ind s e rt df rt' :
  let rq : request := (c, ind, s, e) in
  cache_sound int_of_str (cache rt) →
  fetch c ind s e rt = (Ok df, rt') →
  ascending_by_year df ∧
  ∀ service2 rt2,
    cache rt2 !! rq = cache rt !! rq →
    service2 (length (net_log rt2)) rq = service (length (net_log rt)) rq →
    (fetch_world_bank int_of_str service2 c ind s e rt2).1 = Ok df.
Proof.
  intros rq Hc Hf. split.
  - destruct (fetch_sound int_of_str service c ind s e rt Hc) as [_ Hok].
    destruct (Hok df) as [resp Hresp]; [by rewrite Hf|].
    by apply fetch_body_rows in Hresp as (? & ? & ? & _ & _ & _ & _ & ?).
  - intros service2 rt2 Hcache Hreply.
    destruct (cache rt !! rq) as [df'|] eqn:Hl.
    + rewrite (fetch_hit _ _ _ _ _ _ _ _ Hl) in Hf. injection Hf as <- <-.
      by rewrite (fetch_hit _ _ _ _ _ _ _ _ Hcache).
    + rewrite (fetch_miss _ _ _ _ _ _ _ Hl) in Hf. cbv zeta in Hf. fold rq in Hf.
      rewrite (fetch_miss _ _ _ _ _ _ _ Hcache). cbv zeta. fold rq.
      rewrite Hreply. destruct (fetch_body _ _ _ _); by simplify_eq/=.
Qed.

(** C9: for 1 to 15 parsed country codes, every [iso3] in the combined
    table is one of the parsed (trimmed, uppercased) codes; that table is the
    one the script goes on to render unless it is empty. *)
Theorem combined_iso3_requested i rt :
  let countries := parse_countries (countries_text i) in
  cache_sound int_of_str (cache rt) →
  (1 ≤ length countries ≤ 15)%nat →
  Forall (λ r, iso3 r ∈ countries) (rows_of (combined_table int_of_str service i rt)) ∧
  (run i = true →
   (main int_of_str service i rt).1 =
     if df_empty (combined_table int_of_str service i rt) then Stopped
     else Continue (combined_table int_of_str service i rt)).
Proof.
  intros countries Hc Hlen. split.
  - unfold combined_table. rewrite rows_of_combine. fold countries.
    destruct (calls_sound int_of_str service (INDICATORS (indicator_choice i))
                (start_year i) (end_year i) countries rt Hc) as [_ Hall].
    pose proof (calls_countries int_of_str service (INDICATORS (indicator_choice i))
                  (start_year i) (end_year i) countries rt) as Hcs.
    apply Forall_forall. intros x (l & (df & -> & Hdf)%list_elem_of_fmap & Hx)%elem_of_concat.
    apply elem_of_successes in Hdf as [c Hin].
    rewrite Forall_forall in Hall. destruct (Hall _ Hin df eq_refl) as [resp Hresp].
    simpl in Hresp. apply fetch_body_iso3 in Hresp.
    rewrite Forall_forall in Hresp. rewrite (Hresp _ Hx).
    assert (Hcin : c ∈ countries).
    { rewrite <- Hcs. apply list_elem_of_fmap. by exists (c, Ok df). }
    by rewrite (parse_countries_upper _ _ Hcin).
  - intros Hrun. rewrite main_valid by done. cbv zeta.
    fold (combined_table int_of_str service i rt).
    by destruct (df_empty _).
Qed.








End Claims.

(** ** The claims on the sample data

    [sample_service] answers DEU and BRA with two entries each, does not
    answer FRA, and sends its one-element error reply for any other code. *)

(** C1 on the DEU payload, requested as "deu". *)
Lemma fetch_keeps_truthy_dates_sample :
  ∃ kept,
    Forall2 (λ item r, build_row int_of_decimal "deu" "SP.POP.TOTL" item = Ok r ∧
                       is_Some (year r) ∧
                       py_get item "value" = Ok (value r))
      (filter (λ item, truthy (date_of item) = true)
         (entries_of (sample_payload "DEU" "Germany"))) kept ∧
    Permutation (rows_of (sample_table "DEU" "Germany")) kept.
Proof.
  apply (fetch_keeps_truthy_dates int_of_decimal "deu" "SP.POP.TOTL" 200).
  vm_compute. reflexivity.
Defined.

(** C1 as stated fails: an entry with the non-null date [""] leaves no row
    in the returned table; and an entry with the date "2020Q1" is not
    dropped, the whole fetch raises [ValueError]. *)
Lemma blank_date_leaves_no_row :
  date_of blank_date_entry ≠ JNull ∧
  fetch_body int_of_decimal "DEU" "SP.POP.TOTL"
    (Reply 200 (Some (JList [sample_meta; JList [blank_date_entry]])))
  = Ok (Frame true []) ∧
  fetch_body int_of_decimal "DEU" "SP.POP.TOTL"
    (Reply 200 (Some (JList [sample_meta;
       JList [sample_entry "DEU" "Germany" "SP.POP.TOTL" "2001" (JInt 82350000);
              sample_entry "DEU" "Germany" "SP.POP.TOTL" "2020Q1" (JInt 83160000)]])))
  = Raise ValueError.
Proof. split_and!; [discriminate|vm_compute; reflexivity..]. Qed.

(** C2 on FRA, for which the GET gets no response. *)
Lemma failed_fetch_warns_sample :
  ∃ err,
    fetch_world_bank int_of_decimal sample_service "FRA" "SP.POP.TOTL" 2000 2005 fresh
      = (Raise err, Runtime [("FRA", "SP.POP.TOTL", 2000, 2005)] ∅ []) ∧
    fetch_loop int_of_decimal sample_service "SP.POP.TOTL" 2000 2005 ["FRA"; "BRA"] [] fresh
      = fetch_loop int_of_decimal sample_service "SP.POP.TOTL" 2000 2005 ["BRA"] []
          (Runtime [("FRA", "SP.POP.TOTL", 2000, 2005)] ∅
             [StWarning (FetchFailed "FRA" err)]).
Proof.
  apply (failed_fetch_warns int_of_decimal sample_service
           "SP.POP.TOTL" 2000 2005 "FRA" ["BRA"] [] fresh).
  - reflexivity.
  - left. reflexivity.
Defined.

(** C2 as stated fails: the one-element reply is not of the documented
    shape, yet the fetch returns an empty table and the page names no
    country, it only reports that there is no data; and a reply with the
    non-2xx status 304 and a good body is normalised like any other. *)
Lemma malformed_payload_not_warned :
  expected_shape sample_error_payload = false ∧
  (fetch_all int_of_decimal sample_service "SP.POP.TOTL" 2000 2005 ["XYZ"] fresh).1
    = [("XYZ", Ok empty_observations)] ∧
  (main int_of_decimal sample_service (sample_inputs "XYZ") fresh).1 = Stopped ∧
  page (main int_of_decimal sample_service (sample_inputs "XYZ") fresh).2
    = [Markdown "SP.POP.TOTL"; StWarning NoData] ∧
  fetch_body int_of_decimal "DEU" "SP.POP.TOTL"
    (Reply 304 (Some (sample_payload "DEU" "Germany")))
  = Ok (sample_table "DEU" "Germany").
Proof. split_and!; vm_compute; reflexivity. Qed.

(** C3 on the DEU payload, requested as "deu". *)
Lemma fetch_rows_iso3_indicator_sample :
  Forall (λ r, iso3 r = upper "deu") (rows_of (sample_table "DEU" "Germany")) ∧
  ∃ kept,
    Forall2 (λ item r,
               indicator r = echoed "indicator" "id" (JStr "SP.POP.TOTL") item ∧
               (∃ y, py_int int_of_decimal (date_of item) = Ok y ∧ year r = Some y) ∧
               py_get item "value" = Ok (value r))
      (filter (λ item, truthy (date_of item) = true)
         (entries_of (sample_payload "DEU" "Germany"))) kept ∧
    Permutation (rows_of (sample_table "DEU" "Germany")) kept.
Proof.
  apply (fetch_rows_iso3_indicator int_of_decimal "deu" "SP.POP.TOTL" 200).
  vm_compute. reflexivity.
Defined.

(** C3 as stated fails: asked for SP.POP.TOTL, the table keeps the id each
    entry reports, so its two rows differ in [indicator] and the first one
    is not the requested code. *)
Lemma echoed_indicator_differs :
  fetch_body int_of_decimal "DEU" "SP.POP.TOTL" (Reply 200 (Some echo_payload))
  = Ok (Frame true
          [(0%nat, Row "DEU" (JStr "Germany") (JStr "SP.POP.0014.TO") (Some 2000)
                     (JInt 12870000));
           (1%nat, Row "DEU" (JStr "Germany") (JStr "SP.POP.TOTL") (Some 2001)
                     (JInt 82350000))]) ∧
  JStr "SP.POP.0014.TO" ≠ JStr "SP.POP.TOTL".
Proof. split; [vm_compute; reflexivity|discriminate]. Qed.

(** C5 on a text of blanks and a comma, which parses to no country. *)
Lemma invalid_input_halts_sample :
  ∃ m, (m = NoCountries ∨ m = TooManyCountries) ∧
    main int_of_decimal sample_service (sample_inputs " , ") fresh =
      (Stopped, set_page (page fresh ++ [Markdown "SP.POP.TOTL"; StError m]) fresh) ∧
    net_log (main int_of_decimal sample_service (sample_inputs " , ") fresh).2
      = net_log fresh.
Proof.
  apply (invalid_input_halts int_of_decimal sample_service (sample_inputs " , ") fresh).
  - reflexivity.
  - left. vm_compute. reflexivity.
Defined.

(** C6 on "FRA,XYZ": one fetch raises, the other returns no rows. *)
Lemma empty_result_halts_sample :
  df_empty (combined_table int_of_decimal sample_service (sample_inputs "FRA,XYZ") fresh)
    = true ∧
  main int_of_decimal sample_service (sample_inputs "FRA,XYZ") fresh =
    (Stopped,
     set_page
       (page fresh ++
        Markdown "SP.POP.TOTL" ::
        warnings (fetch_all int_of_decimal sample_service "SP.POP.TOTL" 2000 2005
                    (parse_countries "FRA,XYZ") fresh).1 ++ [StWarning NoData])
       (fetch_all int_of_decimal sample_service "SP.POP.TOTL" 2000 2005
          (parse_countries "FRA,XYZ") fresh).2) ∧
  Forall (λ el, is_render el = false)
    (Markdown "SP.POP.TOTL" ::
     warnings (fetch_all int_of_decimal sample_service "SP.POP.TOTL" 2000 2005
                 (parse_countries "FRA,XYZ") fresh).1 ++ [StWarning NoData]).
Proof.
  apply (empty_result_halts int_of_decimal sample_service (sample_inputs "FRA,XYZ") fresh).
  - reflexivity.
  - vm_compute. lia.
  - vm_compute. repeat constructor.
Defined.

(** C7 on the first fetch of DEU in a fresh process. *)
Lemma fetch_sorted_deterministic_sample :
  ascending_by_year (sample_table "DEU" "Germany") ∧
  ∀ service2 rt2,
    cache rt2 !! (("DEU", "SP.POP.TOTL", 2000, 2005) : request)
      = cache fresh !! (("DEU", "SP.POP.TOTL", 2000, 2005) : request) →
    service2 (length (net_log rt2)) ("DEU", "SP.POP.TOTL", 2000, 2005)
      = sample_service (length (net_log fresh)) ("DEU", "SP.POP.TOTL", 2000, 2005) →
    (fetch_world_bank int_of_decimal service2 "DEU" "SP.POP.TOTL" 2000 2005 rt2).1
      = Ok (sample_table "DEU" "Germany").
Proof.
  apply (fetch_sorted_deterministic int_of_decimal sample_service
           "DEU" "SP.POP.TOTL" 2000 2005 fresh (sample_table "DEU" "Germany")
           (fetch_world_bank int_of_decimal sample_service
              "DEU" "SP.POP.TOTL" 2000 2005 fresh).2).
  - apply cache_sound_empty.
  - vm_compute. reflexivity.
Defined.



(** C9 on the text "deu, FRA ,bra". *)
Lemma combined_iso3_requested_sample :
  Forall (λ r, iso3 r ∈ parse_countries "deu, FRA ,bra")
    (rows_of (combined_table int_of_decimal sample_service
                (sample_inputs "deu, FRA ,bra") fresh)) ∧
  (run (sample_inputs "deu, FRA ,bra") = true →
   (main int_of_decimal sample_service (sample_inputs "deu, FRA ,bra") fresh).1 =
     if df_empty (combined_table int_of_decimal sample_service
                    (sample_inputs "deu, FRA ,bra") fresh)
     then Stopped
     else Continue (combined_table int_of_decimal sample_service
                      (sample_inputs "deu, FRA ,bra") fresh)).
Proof.
  apply (combined_iso3_requested int_of_decimal sample_service
           (sample_inputs "deu, FRA ,bra") fresh).
  - apply cache_sound_empty.
  - vm_compute. lia.
Defined.


(** * Further properties *)

(** ** Parsing the country list (line 61) *)

Lemma is_space_upper c : is_space (upper_ascii c) = is_space c.
Proof. destruct c as [[] [] [] [] [] [] [] []]; reflexivity. Qed.

Lemma comma_upper c : Ascii.eqb (upper_ascii c) "," = Ascii.eqb c ",".
Proof. destruct c as [[] [] [] [] [] [] [] []]; reflexivity. Qed.

Lemma upper_nil s : upper s = EmptyString ↔ s = EmptyString.
Proof. by destruct s. Qed.

Lemma lstrip_upper s : lstrip (upper s) = upper (lstrip s).
Proof.
  induction s as [|c s IH]; simpl; [done|].
  rewrite is_space_upper. by destruct (is_space c).
Qed.

Lemma rstrip_upper s : rstrip (upper s) = upper (rstrip s).
Proof.
  induction s as [|c s IH]; simpl; [done|].
  rewrite IH, is_space_upper.
  destruct (rstrip s); simpl; [by destruct (is_space c)|done].
Qed.

Lemma strip_upper s : strip (upper s) = upper (strip s).
Proof. unfold strip. by rewrite lstrip_upper, rstrip_upper. Qed.

Lemma rstrip_idem s : rstrip (rstrip s) = rstrip s.
Proof.
  induction s as [|c s IH]; simpl; [done|].
  destruct (rstrip s) as [|c' t] eqn:E.
  - destruct (is_space c) eqn:Hc; simpl; [done|]. by rewrite Hc.
  - simpl. simpl in IH. by rewrite IH.
Qed.

Lemma lstrip_rstrip s : lstrip (rstrip s) = rstrip (lstrip s).
Proof.
  induction s as [|c s IH]; simpl; [done|].
  destruct (is_space c) eqn:Hc.
  - rewrite <- IH. destruct (rstrip s); simpl; by rewrite ?Hc.
  - simpl. destruct (rstrip s); simpl; by rewrite ?Hc.
Qed.

Lemma lstrip_idem s : lstrip (lstrip s) = lstrip s.
Proof.
  induction s as [|c s IH]; simpl; [done|].
  destruct (is_space c) eqn:Hc; [done|]. simpl. by rewrite Hc.
Qed.

Lemma strip_idem s : strip (strip s) = strip s.
Proof.
  unfold strip. by rewrite lstrip_rstrip, lstrip_idem, rstrip_idem.
Qed.

Lemma strip_cons_nil c s :
  strip (String c s) = EmptyString ↔ is_space c = true ∧ strip s = EmptyString.
Proof.
  unfold strip. simpl. destruct (is_space c) eqn:Hc.
  - split; [by intros ?|by intros [_ ?]].
  - simpl. rewrite Hc. split; [|by intros [? _]].
    by destruct (rstrip s).
Qed.

Lemma comma_free_cons c s :
  comma_free (String c s) = negb (Ascii.eqb c ",") && comma_free s.
Proof. done. Qed.

Lemma comma_free_lstrip s : comma_free s = true → comma_free (lstrip s) = true.
Proof.
  induction s as [|c s IH]; [done|]. rewrite comma_free_cons.
  intros [Hc Hs]%andb_true_iff. simpl.
  destruct (is_space c); [auto|]. rewrite comma_free_cons. by rewrite Hc, Hs.
Qed.

Lemma comma_free_rstrip s : comma_free s = true → comma_free (rstrip s) = true.
Proof.
  induction s as [|c s IH]; [done|]. rewrite comma_free_cons.
  intros [Hc Hs]%andb_true_iff. simpl. specialize (IH Hs).
  destruct (rstrip s).
  - destruct (is_space c); [done|]. rewrite comma_free_cons. by rewrite Hc.
  - rewrite comma_free_cons. by rewrite Hc, IH.
Qed.

Lemma comma_free_upper s : comma_free (upper s) = comma_free s.
Proof.
  induction s as [|c s IH]; [done|]. simpl upper.
  by rewrite !comma_free_cons, comma_upper, IH.
Qed.

Lemma split_comma_free s : Forall (λ t, comma_free t = true) (split_comma s).
Proof.
  induction s as [|c s IH]; simpl; [by repeat constructor|].
  destruct (Ascii.eqb c ",") eqn:Hc; [by constructor|].
  destruct (split_comma s) as [|t ts]; [by repeat constructor; rewrite comma_free_cons, Hc|].
  apply Forall_cons in IH as [Ht Hts]. constructor; [|done].
  by rewrite comma_free_cons, Hc, Ht.
Qed.

Lemma split_comma_upper s : split_comma (upper s) = upper <$> split_comma s.
Proof.
  induction s as [|c s IH]; simpl; [done|].
  rewrite comma_upper, IH.
  destruct (Ascii.eqb c ","); [done|]. by destruct (split_comma s).
Qed.

Lemma split_comma_single s : comma_free s = true → split_comma s = [s].
Proof.
  induction s as [|c s IH]; [done|]. rewrite comma_free_cons.
  intros [Hc Hs]%andb_true_iff. simpl.
  apply negb_true_iff in Hc. by rewrite Hc, (IH Hs).
Qed.

(** X1: every parsed country code is clean: it is not empty, has no blank
    at either end, is in upper case and contains no comma. *)
Theorem parse_countries_clean text :
  Forall (λ c, c ≠ EmptyString ∧ strip c = c ∧ upper c = c ∧ comma_free c = true)
         (parse_countries text).
Proof.
  unfold parse_countries. apply Forall_fmap, Forall_forall.
  intros tok [Hne Hin]%list_elem_of_filter. simpl. split_and!.
  - by rewrite upper_nil.
  - by rewrite strip_upper, strip_idem.
  - apply upper_idem.
  - rewrite comma_free_upper. apply comma_free_rstrip, comma_free_lstrip.
    pose proof (split_comma_free text) as Hall.
    rewrite Forall_forall in Hall. by apply Hall.
Qed.

Lemma split_comma_blank s :
  Forall (λ t, strip t = EmptyString) (split_comma s) ↔
  forallb separator (String.list_ascii_of_string s) = true.
Proof.
  induction s as [|c s IH]; simpl.
  - split; [done|]. intros _. by repeat constructor.
  - unfold separator at 1. destruct (Ascii.eqb c ",") eqn:Hc.
    + rewrite orb_true_r. simpl. rewrite Forall_cons, IH.
      split; [by intros [_ ?]|by intros ?].
    + rewrite orb_false_r. rewrite andb_true_iff, <- IH.
      pose proof (split_comma_nonempty s) as Hne.
      destruct (split_comma s) as [|t ts]; [done|].
      rewrite !Forall_cons, strip_cons_nil. tauto.
Qed.

Lemma parse_countries_nil_iff text :
  parse_countries text = [] ↔
  forallb separator (String.list_ascii_of_string text) = true.
Proof.
  rewrite <- split_comma_blank. unfold parse_countries. split.
  - intros H%fmap_nil_inv. apply Forall_forall. intros t Ht.
    destruct (decide (strip t = EmptyString)) as [|Hne]; [done|].
    assert (t ∈ filter (λ c, strip c ≠ EmptyString) (split_comma text)) as Hin
      by by apply list_elem_of_filter.
    rewrite H in Hin. by apply elem_of_nil in Hin.
  - intros H. induction H as [|t ts Ht _ IH]; [done|].
    rewrite filter_cons. by destruct (decide (strip t ≠ EmptyString)).
Qed.

(** Lines 71-73 and 75-77, each on its own. *)
Lemma main_no_countries int_of_str service i rt :
  run i = true →
  length (parse_countries (countries_text i)) = 0%nat →
  main int_of_str service i rt =
    (Stopped,
     set_page (page rt ++ [Markdown (INDICATORS (indicator_choice i));
                           StError NoCountries]) rt).
Proof.
  intros Hrun H0. unfold main. cbv zeta.
  unfold mbind at 1, script_bind at 1. cbn [show]. rewrite Hrun.
  rewrite (bool_decide_eq_true_2 (length _ = 0%nat)) by done.
  unfold mbind, script_bind, mret, script_ret, st_stop, set_page. simpl.
  by rewrite <- app_assoc.
Qed.

Lemma main_too_many int_of_str service i rt :
  run i = true →
  (15 < length (parse_countries (countries_text i)))%nat →
  main int_of_str service i rt =
    (Stopped,
     set_page (page rt ++ [Markdown (INDICATORS (indicator_choice i));
                           StError TooManyCountries]) rt).
Proof.
  intros Hrun H15. unfold main. cbv zeta.
  unfold mbind at 1, script_bind at 1. cbn [show]. rewrite Hrun.
  rewrite (bool_decide_eq_false_2 (length _ = 0%nat)) by lia.
  rewrite (bool_decide_eq_true_2 (15 < length _)%nat) by done.
  unfold mbind, script_bind, mret, script_ret, st_stop, set_page. simpl.
  by rewrite <- app_assoc.
Qed.

(** X2: for a text of ASCII characters and with "Load data" pressed, the
    parsed list is empty exactly when the text holds nothing but blanks and
    commas (the empty text included), and that is exactly when the script
    stops with the error that asks for at least one country code. *)
Theorem parse_countries_nil int_of_str service i rt :
  ascii_text (countries_text i) = true →
  run i = true →
  (parse_countries (countries_text i) = [] ↔
   forallb separator (String.list_ascii_of_string (countries_text i)) = true) ∧
  (main int_of_str service i rt
   = (Stopped,
      set_page (page rt ++ [Markdown (INDICATORS (indicator_choice i));
                            StError NoCountries]) rt) ↔
   forallb separator (String.list_ascii_of_string (countries_text i)) = true).
Proof.
  intros _ Hrun. split; [apply parse_countries_nil_iff|].
  rewrite <- parse_countries_nil_iff. split.
  - intros Hmain.
    destruct (parse_countries (countries_text i)) as [|c cs] eqn:Hcs; [done|].
    exfalso.
    destruct (decide (15 < length (parse_countries (countries_text i)))%nat)
      as [H15|H15].
    + rewrite (main_too_many _ _ _ _ Hrun H15) in Hmain.
      injection Hmain as Hpage. by apply app_inv_head in Hpage.
    + assert (Hlen : (1 ≤ length (parse_countries (countries_text i)) ≤ 15)%nat).
      { rewrite Hcs in H15 |- *. simpl in *. lia. }
      rewrite (main_valid _ _ _ _ Hrun Hlen) in Hmain. cbv zeta in Hmain.
      destruct (df_empty _); [|done].
      injection Hmain as _ _ Hpage. apply app_inv_head in Hpage.
      injection Hpage as Hpage.
      destruct (warnings _) as [|w [|w' ws]]; done.
  - intros Hcs. apply main_no_countries; [done|]. by rewrite Hcs.
Qed.

(** X3: the text is parsed token by token.  Two texts joined by a comma
    parse to the two parsed lists, one after the other; a text without a
    comma parses to its trimmed, uppercased content, or to nothing when it
    is blank. *)
Theorem parse_countries_tokens :
  (∀ s1 s2, parse_countries (String.append s1 (String "," s2))
            = parse_countries s1 ++ parse_countries s2) ∧
  (∀ s, comma_free s = true →
        parse_countries s
        = if decide (strip s = EmptyString) then [] else [upper (strip s)]).
Proof.
  split.
  - intros s1 s2. unfold parse_countries.
    by rewrite split_comma_app, filter_app, fmap_app.
  - intros s Hs. unfold parse_countries. rewrite (split_comma_single s Hs).
    rewrite filter_cons, filter_nil.
    destruct (decide (strip s = EmptyString)) as [He|Hne].
    + by rewrite decide_False by (by intros ?).
    + by rewrite decide_True.
Qed.

(** X4: the parsed list does not depend on the case of the text. *)
Theorem parse_countries_case text :
  parse_countries (upper text) = parse_countries text.
Proof.
  unfold parse_countries. rewrite split_comma_upper.
  induction (split_comma text) as [|t ts IH]; [done|].
  rewrite fmap_cons, !filter_cons, strip_upper.
  destruct (decide (strip t ≠ EmptyString)) as [Hne|He].
  - rewrite decide_True by (by rewrite upper_nil).
    rewrite !fmap_cons, strip_upper, upper_idem. f_equal. exact IH.
  - rewrite decide_False by (by rewrite upper_nil). exact IH.
Qed.

(** ** When a reply gives a table (lines 28-47) *)

Lemma is_ok_bind {A B} (m : result A) (f : A → result B) :
  is_ok (m ≫= f) = match m with Ok a => is_ok (f a) | Raise _ => false end.
Proof. by destruct m. Qed.

Lemma nested_get_is_ok d key sub default :
  is_ok (nested_get (JDict d) key sub default)
  = falsy_or_dict (from_option id JNull (assoc key d)).
Proof.
  unfold nested_get, falsy_or_dict, or_empty_dict. simpl.
  destruct (from_option id JNull (assoc key d)) as [|[]|n| | | |s|l|d'];
    simpl; try done.
  - by destruct (n =? 0).
  - by destruct (_ =? 0).
  - by destruct (String.eqb s EmptyString).
  - by destruct l.
  - by destruct d'.
Qed.

Lemma mapM_is_ok {A B} (f : A → result B) (l : list A) :
  is_ok (mapM f l) = forallb (λ x, is_ok (f x)) l.
Proof.
  induction l as [|x l IH]; [done|]. simpl.
  rewrite is_ok_bind. destruct (f x) as [y|e]; simpl; [|done].
  rewrite is_ok_bind, <- IH. by destruct (mapM f l).
Qed.

Section Acceptable.

Variable int_of_str : string → option Z.

Lemma build_row_is_ok c ind item :
  is_ok (build_row int_of_str c ind item) = entry_ok int_of_str item.
Proof.
  destruct item as [| | | | | | | |d]; try done.
  unfold build_row, entry_ok. simpl py_get. rewrite is_ok_bind.
  rewrite <- (nested_get_is_ok d "country" "value" (JStr (upper c))).
  rewrite <- (nested_get_is_ok d "indicator" "id" (JStr ind)).
  rewrite is_ok_bind.
  destruct (nested_get (JDict d) "country" "value" _) as [cty|e]; simpl; [|done].
  rewrite is_ok_bind.
  destruct (nested_get (JDict d) "indicator" "id" _) as [i|e]; simpl; [|done].
  rewrite is_ok_bind.
  destruct (truthy (from_option id JNull (assoc "date" d))); simpl; [|done].
  by destruct (py_int int_of_str _).
Qed.

Lemma forallb_build_row c ind items :
  forallb (λ x, is_ok (build_row int_of_str c ind x)) items
  = forallb (entry_ok int_of_str) items.
Proof.
  induction items as [|x l IH]; [done|]. simpl. by rewrite build_row_is_ok, IH.
Qed.

Lemma rows_to_table_list_is_ok c ind items :
  is_ok (rows_to_table int_of_str c ind (JList items))
  = match items with [] => false | _ => forallb (entry_ok int_of_str) items end.
Proof.
  unfold rows_to_table. simpl py_iter. rewrite is_ok_bind, is_ok_bind.
  pose proof (mapM_is_ok (build_row int_of_str c ind) items) as Hok.
  rewrite forallb_build_row in Hok.
  destruct (mapM (build_row int_of_str c ind) items) as [rows|e] eqn:Hm;
    simpl in Hok.
  - apply mapM_ok, Forall2_length in Hm.
    destruct items as [|item items], rows as [|r rows]; done.
  - by destruct items.
Qed.

Lemma rows_of_strings_raise c ind {A} (f : A → string) (l : list A) :
  is_ok (mapM (build_row int_of_str c ind) ((λ x, JStr (f x)) <$> l)
         ≫= λ rows, normalize (pd_DataFrame rows)) = false.
Proof. by destruct l. Qed.

Lemma table_of_payload_is_ok c ind data :
  is_ok (table_of_payload int_of_str c ind data) = payload_ok int_of_str data.
Proof.
  destruct data as [| | | | | | |l|]; try done.
  destruct l as [|meta [|second rest]]; try done.
  unfold table_of_payload, payload_ok.
  destruct second as [| | | | | |s|items|d]; try done.
  - apply (rows_of_strings_raise c ind (λ ch, String ch EmptyString)).
  - rewrite rows_to_table_list_is_ok. by destruct items.
  - apply (rows_of_strings_raise c ind fst).
Qed.

End Acceptable.

(** X5: whether the body of [fetch_world_bank] returns a table is decided
    by the reply alone, not by the requested codes: it does exactly when the
    status is no 4xx or 5xx, the body is JSON, and the payload is no list of
    two elements or more, or its second element is null or a non-empty list
    of entries that are all accepted.  One entry that is not accepted makes
    the whole call raise. *)
Theorem fetch_body_returns_iff int_of_str c ind resp :
  is_ok (fetch_body int_of_str c ind resp) = reply_ok int_of_str resp.
Proof.
  destruct resp as [|status [data|]]; simpl; [done|..].
  - unfold raise_for_status.
    destruct ((400 <=? status) && (status <? 600)); simpl; [done|].
    apply table_of_payload_is_ok.
  - unfold raise_for_status. by destruct ((400 <=? status) && (status <? 600)).
Qed.

(** ** The shape of a table (lines 35-47) *)

Lemma labels_of_imap {A} (g : nat → nat) (l : list A) :
  fst <$> imap (λ i x, (g i, x)) l = g <$> seq 0 (length l).
Proof.
  revert g. induction l as [|x l IH]; intros g; [done|].
  simpl. f_equal. rewrite <- fmap_S_seq, <- list_fmap_compose. apply (IH (g ∘ S)).
Qed.

Lemma labels_of_enumerate {A} (l : list A) :
  fst <$> enumerate l = seq 0 (length l).
Proof. unfold enumerate. rewrite (labels_of_imap id). apply list_fmap_id. Qed.

Lemma rows_of_filter (l : list (nat * row)) :
  snd <$> filter (λ r, has_year r.2 = true) l
  = filter (λ r, has_year r = true) (snd <$> l).
Proof.
  induction l as [|x l IH]; [done|].
  rewrite fmap_cons, !filter_cons. simpl.
  destruct (decide (has_year x.2 = true)); [rewrite fmap_cons|]; by rewrite IH.
Qed.

(** X6: the chain of line 46 returns a table with columns whose rows are,
    up to order, the rows of its input that have a year, labelled 0, 1, 2,
    ... from the top. *)
Theorem normalize_rows_labels df df' :
  normalize df = Ok df' →
  columns df' = true ∧
  Permutation (rows_of df') (filter (λ r, has_year r = true) (rows_of df)) ∧
  labels_of df' = seq 0 (length (rows_of df')).
Proof.
  destruct (columns df) eqn:Hc; [|by rewrite normalize_raise].
  rewrite normalize_ok by done. intros [= <-].
  unfold rows_of, labels_of. simpl. split_and!; [done|..].
  - by rewrite rows_of_enumerate, sort_by_year_perm, rows_of_filter.
  - by rewrite labels_of_enumerate, rows_of_enumerate.
Qed.

Section Fields.

Variable int_of_str : string → option Z.

Lemma build_row_fields c ind item r :
  build_row int_of_str c ind item = Ok r →
  nested_get item "country" "value" (JStr (upper c)) = Ok (country r) ∧
  (year r = None ∨
   ∃ y, truthy (date_of item) = true ∧
        py_int int_of_str (date_of item) = Ok y ∧ year r = Some y).
Proof.
  unfold build_row.
  intros (d & Hd%py_get_date & H)%bind_ok. subst d.
  apply bind_ok in H as (cty & Hcty & H).
  apply bind_ok in H as (i & Hi & H).
  apply bind_ok in H as (y & Hy & H).
  apply bind_ok in H as (v & Hv & [= <-]). simpl. split; [done|].
  destruct (truthy (date_of item)).
  - destruct (py_int _ _) as [n|]; simplify_eq/=. right. by exists n.
  - simplify_eq/=. by left.
Qed.

(** A row of a returned table, its entry, and that the row has a year. *)
Lemma fetch_body_row_entry c ind status data df r :
  fetch_body int_of_str c ind (Reply status (Some data)) = Ok df →
  r ∈ rows_of df →
  has_year r = true ∧
  ∃ item, item ∈ entries_of data ∧ build_row int_of_str c ind item = Ok r.
Proof.
  intros (st & d & rows & [= <- <-] & Hrows & Hperm & _)%fetch_body_rows Hr.
  rewrite Hperm in Hr. apply list_elem_of_filter in Hr as [Hy Hr].
  split; [done|]. by apply (Forall2_elem_of_r _ _ _ _ Hrows).
Qed.

End Fields.

(** X7: a table returned by [fetch_world_bank] has its columns, is labelled
    0, 1, 2, ... and has as many rows as the payload has entries with a
    truthy date. *)
Theorem fetch_table_shape int_of_str c ind status data df :
  fetch_body int_of_str c ind (Reply status (Some data)) = Ok df →
  columns df = true ∧
  labels_of df = seq 0 (length (rows_of df)) ∧
  length (rows_of df)
  = length (filter (λ item, truthy (date_of item) = true) (entries_of data)).
Proof.
  intros H.
  destruct (fetch_body_ok _ _ _ _ _ H) as (st & d & [= <- <-] & _ & Ht).
  apply table_of_payload_ok in Ht as (rows & Hrows & ->).
  unfold rows_of, labels_of. simpl.
  rewrite labels_of_enumerate, rows_of_enumerate. split_and!; [done..|].
  rewrite length_fmap, sort_by_year_perm, <- (length_fmap snd), rows_of_filter_enumerate.
  symmetry. eapply Forall2_length.
  apply (Forall2_filter_both (λ item r, build_row int_of_str c ind item = Ok r)).
  eapply Forall2_impl; [exact Hrows|]. intros item r Hr. simpl.
  destruct (build_row_ok _ _ _ _ _ Hr) as (_ & _ & _ & Hy).
  by rewrite has_year_is_Some.
Qed.

(** X8: the [country] of a row is the [value] that the [country] object of
    its own entry carries (the entry its year and its value come from), and
    the requested code, uppercased, when that entry carries none. *)
Theorem fetch_rows_country int_of_str c ind status data df :
  fetch_body int_of_str c ind (Reply status (Some data)) = Ok df →
  ∃ kept,
    Forall2 (λ item r,
               country r = echoed "country" "value" (JStr (upper c)) item ∧
               (∃ y, py_int int_of_str (date_of item) = Ok y ∧ year r = Some y) ∧
               py_get item "value" = Ok (value r))
      (filter (λ item, truthy (date_of item) = true) (entries_of data)) kept ∧
    Permutation (rows_of df) kept.
Proof.
  intros H.
  destruct (fetch_body_kept _ _ _ _ _ _ H) as (kept & Hkept & Hperm).
  exists kept. split; [|done].
  eapply Forall2_impl; [exact Hkept|]. intros item r [Hr [y Hy]]. simpl.
  destruct (build_row_spec _ _ _ _ _ Hr) as (_ & Hcty & _ & Hv & Hyear).
  split_and!; [done| |done].
  destruct Hyear as [[Hnone _]|(y' & _ & Hint & Hsome)]; [congruence|].
  by exists y'.
Qed.

(** X9: the [year] of a row of a returned table is [int(date)] for the
    truthy [date] of one of the payload's entries. *)
Theorem fetch_rows_year int_of_str c ind status data df :
  fetch_body int_of_str c ind (Reply status (Some data)) = Ok df →
  Forall (λ r, ∃ item y, item ∈ entries_of data ∧
                         truthy (date_of item) = true ∧
                         py_int int_of_str (date_of item) = Ok y ∧
                         year r = Some y)
         (rows_of df).
Proof.
  intros H. apply Forall_forall. intros r Hr.
  destruct (fetch_body_row_entry _ _ _ _ _ _ _ H Hr) as (Hy & item & Hin & Hb).
  apply build_row_fields in Hb as [_ [Hnone|(y & Ht & Hint & Hsome)]].
  - unfold has_year in Hy. by rewrite Hnone in Hy.
  - by exists item, y.
Qed.

(** X10: where the rows that have a year have pairwise distinct years, the
    result of line 46 does not depend on how [sort_values] sorts: every
    sorted permutation of these rows gives, renumbered, the table that
    [normalize] returns. *)
Theorem normalize_any_sort df l' :
  columns df = true →
  NoDup ((λ r, year r.2) <$> filter (λ r, has_year r.2 = true) (records df)) →
  Permutation l' (filter (λ r, has_year r.2 = true) (records df)) →
  StronglySorted year_le l' →
  normalize df = Ok (reset_index (Frame true l')).
Proof.
  intros Hc Hnd Hp Hs. rewrite normalize_ok by done.
  by rewrite (sort_by_year_canonical _ l' Hnd Hp Hs).
Qed.

(** ** The memo of [st.cache_data] (line 22) *)

Section Memo.

Variable int_of_str : string → option Z.
Variable service : nat → request → response.

#[local] Abbreviation fetch := (fetch_world_bank int_of_str service).
#[local] Abbreviation calls := (fetch_all int_of_str service).

(** X11: memoised calls are referentially transparent.  After a call that
    returned a table, a call with the same arguments returns the same table
    and leaves the process as it is, no GET sent, whatever the service would
    answer now. *)
Theorem fetch_twice service2 c ind s e rt df rt1 :
  fetch c ind s e rt = (Ok df, rt1) →
  fetch_world_bank int_of_str service2 c ind s e rt1 = (Ok df, rt1).
Proof.
  intros Hf. apply fetch_hit.
  pose proof (fetch_stores int_of_str service c ind s e rt df) as Hst.
  rewrite Hf in Hst. by apply Hst.
Qed.

(** X12: exceptions are not memoised.  A call that raised had no entry in
    the memo, has sent one GET and has left the memo and the page as they
    were; the next call with the same arguments asks the service again and
    returns or raises by what it gets. *)
Theorem fetch_raise_not_stored c ind s e rt err rt1 :
  let rq : request := (c, ind, s, e) in
  fetch c ind s e rt = (Raise err, rt1) →
  rt1 = Runtime (net_log rt ++ [rq]) (cache rt) (page rt) ∧
  cache rt !! rq = None ∧
  ∀ service2,
    (fetch_world_bank int_of_str service2 c ind s e rt1).1
    = fetch_body int_of_str c ind (service2 (S (length (net_log rt))) rq).
Proof.
  intros rq Hf.
  destruct (cache rt !! rq) as [df|] eqn:Hl.
  { by rewrite (fetch_hit _ _ _ _ _ _ _ _ Hl) in Hf. }
  rewrite (fetch_miss _ _ _ _ _ _ _ Hl) in Hf. cbv zeta in Hf. fold rq in Hf.
  destruct (fetch_body _ _ _ _) as [df|err'] eqn:Hb; [done|].
  injection Hf as Herr Hrt. subst err rt1. split_and!; [done..|].
  intros service2. rewrite fetch_miss by done. cbv zeta. simpl.
  rewrite length_app. simpl. rewrite Nat.add_1_r. fold rq.
  by destruct (fetch_body int_of_str c ind (service2 _ _)).
Qed.

(** A call sends no GET, or one with its own arguments. *)
Lemma fetch_net_log c ind s e rt :
  net_log (fetch c ind s e rt).2 = net_log rt ∨
  net_log (fetch c ind s e rt).2 = net_log rt ++ [((c, ind, s, e) : request)].
Proof. fetch_cases; auto. Qed.

(** X13: what a call of [fetch_world_bank] leaves alone: the page; the
    whole process when the memo has the entry; the log of GETs but for at
    most one new GET with its own arguments; the memo entries of all other
    keys; and every entry that was there. *)
Theorem fetch_frame c ind s e rt :
  let rq : request := (c, ind, s, e) in
  let rt1 := (fetch c ind s e rt).2 in
  page rt1 = page rt ∧
  (net_log rt1 = net_log rt ∨ net_log rt1 = net_log rt ++ [rq]) ∧
  (is_Some (cache rt !! rq) → rt1 = rt) ∧
  (∀ k, k ≠ rq → cache rt1 !! k = cache rt !! k) ∧
  (∀ k df, cache rt !! k = Some df → cache rt1 !! k = Some df).
Proof.
  intros rq rt1. split_and!.
  - apply fetch_page.
  - apply fetch_net_log.
  - intros [df Hl]. unfold rt1. by rewrite (fetch_hit _ _ _ _ _ _ _ _ Hl).
  - intros k Hk. unfold rt1. fetch_cases; try done.
    by rewrite lookup_insert_ne.
  - intros k df. apply fetch_cache_mono.
Qed.


(** A table returned during the loop is in the memo after it. *)
Lemma calls_outcome_cached ind s e cs rt c df :
  (c, Ok df) ∈ (calls ind s e cs rt).1 →
  cache (calls ind s e cs rt).2 !! ((c, ind, s, e) : request) = Some df.
Proof.
  revert rt. induction cs as [|c0 cs IH]; intros rt.
  - by intros ?%elem_of_nil.
  - rewrite calls_cons. simpl. intros [Heq|Hin]%elem_of_cons; [|by apply IH].
    injection Heq as <- Hok. apply calls_cache_mono. by apply fetch_stores.
Qed.

End Memo.

(** With every table in the memo, the loop only reads the memo. *)
Lemma calls_all_hits int_of_str service ind s e outs rt :
  Forall (λ o, ∃ df, o.2 = Ok df ∧
                     cache rt !! ((o.1, ind, s, e) : request) = Some df) outs →
  fetch_all int_of_str service ind s e (fst <$> outs) rt = (outs, rt).
Proof.
  induction 1 as [|[c r] outs (df & Hr & Hl) _ IH]; [done|].
  simpl in Hr, Hl. subst r. rewrite fmap_cons, calls_cons. cbn [fst snd].
  rewrite (fetch_hit _ _ _ _ _ _ _ _ Hl). simpl. by rewrite IH.
Qed.

(** ** The script as a whole (lines 61-110) *)

Lemma warnings_about outs :
  Forall (warns_about (fst <$> outs)) (warnings outs) ∧
  (length (successes outs) + length (warnings outs) = length outs)%nat.
Proof.
  induction outs as [|[c [df|err]] outs [IHw IHl]].
  - split; [constructor|done].
  - split; [|simpl in *; lia].
    eapply Forall_impl; [exact IHw|].
    intros el (c' & e' & Hin & ->). exists c', e'. split; [by right|done].
  - split; [|simpl in *; lia].
    change (warnings ((c, Raise err) :: outs))
      with (StWarning (FetchFailed c err) :: warnings outs).
    constructor; [exists c, err; split; [left|done]|].
    eapply Forall_impl; [exact IHw|].
    intros el (c' & e' & Hin & ->). exists c', e'. split; [by right|done].
Qed.

Lemma labels_of_combine frames :
  labels_of (combine frames) = seq 0 (length (rows_of (combine frames))).
Proof.
  destruct frames as [|df frames]; [done|].
  unfold combine, pd_concat, labels_of, rows_of. cbn [records].
  by rewrite labels_of_enumerate, rows_of_enumerate.
Qed.

Section Runs.

Variable int_of_str : string → option Z.
Variable service : nat → request → response.

#[local] Abbreviation fetch := (fetch_world_bank int_of_str service).
#[local] Abbreviation loop := (fetch_loop int_of_str service).
#[local] Abbreviation calls := (fetch_all int_of_str service).

(** What is left of the runtime after the script, in terms of its calls. *)
Lemma main_runtime i rt :
  let r := calls (INDICATORS (indicator_choice i)) (start_year i) (end_year i)
             (parse_countries (countries_text i)) rt in
  (run i = true ∧ (1 ≤ length (parse_countries (countries_text i)) ≤ 15)%nat ∧
   net_log (main int_of_str service i rt).2 = net_log r.2 ∧
   cache (main int_of_str service i rt).2 = cache r.2) ∨
  ((run i = false ∨ length (parse_countries (countries_text i)) = 0%nat ∨
    (15 < length (parse_countries (countries_text i)))%nat) ∧
   net_log (main int_of_str service i rt).2 = net_log rt ∧
   cache (main int_of_str service i rt).2 = cache rt).
Proof.
  intros r. destruct (run i) eqn:Hrun.
  - destruct (decide (1 ≤ length (parse_countries (countries_text i)) ≤ 15)%nat)
      as [Hlen|Hlen].
    + left. rewrite main_valid by done. cbv zeta. fold r.
      by destruct (df_empty _).
    + right. destruct (main_invalid int_of_str service i rt Hrun) as (m & _ & ->);
        [lia|]. split_and!; [right; lia|done..].
  - right. rewrite main_idle by done. split_and!; [by left|done..].
Qed.

(** X14: the memo holds only tables that the body of [fetch_world_bank]
    returned, and an execution of the script keeps this and never changes
    or drops an entry. *)
Theorem main_memo_invariant i rt :
  cache_sound int_of_str (cache rt) →
  cache_sound int_of_str (cache (main int_of_str service i rt).2) ∧
  ∀ k df, cache rt !! k = Some df →
          cache (main int_of_str service i rt).2 !! k = Some df.
Proof.
  intros Hc. split; [by apply main_cache_sound|].
  intros k df Hk.
  destruct (main_runtime i rt) as [(_ & _ & _ & ->)|(_ & _ & ->)]; [|done].
  by apply calls_cache_mono.
Qed.



End Runs.

Lemma concat_nil_iff {A} (ls : list (list A)) :
  concat ls = [] ↔ Forall (λ l, l = []) ls.
Proof.
  induction ls as [|l ls IH]; simpl.
  - split; [constructor|done].
  - rewrite Forall_cons, <- IH. split.
    + by intros [-> ->]%app_eq_nil.
    + by intros [-> ->].
Qed.

Section Reruns.

Variable int_of_str : string → option Z.
Variable service : nat → request → response.

#[local] Abbreviation calls := (fetch_all int_of_str service).

(** The tables of the loop have their columns. *)
Lemma successes_columns ind s e cs rt :
  cache_sound int_of_str (cache rt) →
  Forall (λ df, columns df = true ∧ ascending_by_year df)
         (successes (calls ind s e cs rt).1).
Proof.
  intros Hc. destruct (calls_sound int_of_str service ind s e cs rt Hc) as [_ Hall].
  apply Forall_forall. intros df [c Hin]%elem_of_successes.
  rewrite Forall_forall in Hall. destruct (Hall _ Hin df eq_refl) as [resp Hresp].
  by apply fetch_body_rows in Hresp as (? & ? & ? & _ & _ & _ & ? & ?).
Qed.

(** X17: with a sound memo, the script renders exactly when "Load data" is
    pressed, 1 to 15 codes are given, and some fetch returned a table with
    at least one row. *)
Theorem main_renders_iff i rt :
  let countries := parse_countries (countries_text i) in
  let outs := (calls (INDICATORS (indicator_choice i)) (start_year i) (end_year i)
                 countries rt).1 in
  cache_sound int_of_str (cache rt) →
  (∃ df, (main int_of_str service i rt).1 = Continue df) ↔
  run i = true ∧ (1 ≤ length countries ≤ 15)%nat ∧
  ∃ c df, (c, Ok df) ∈ outs ∧ records df ≠ [].
Proof.
  intros countries outs Hc.
  assert (Hempty : df_empty (combine (successes outs)) = false ↔
                   ∃ c df, (c, Ok df) ∈ outs ∧ records df ≠ []).
  { pose proof (successes_columns (INDICATORS (indicator_choice i)) (start_year i)
                  (end_year i) countries rt Hc) as Hcols. fold outs in Hcols.
    unfold df_empty. rewrite orb_false_iff, negb_false_iff, bool_decide_eq_false.
    split.
    - intros [_ Hne].
      assert (Hrows : rows_of (combine (successes outs)) ≠ []).
      { unfold rows_of. by intros ?%fmap_nil_inv. }
      rewrite rows_of_combine, concat_nil_iff in Hrows.
      apply not_Forall_Exists in Hrows; [|intros l; apply list_eq_nil_dec].
      apply Exists_exists in Hrows as (l & (df & -> & Hdf)%list_elem_of_fmap & Hl).
      apply elem_of_successes in Hdf as [c Hin]. exists c, df. split; [done|].
      intros Hr. apply Hl. unfold rows_of. by rewrite Hr.
    - intros (c & df & Hin & Hne).
      assert (Hdf : df ∈ successes outs) by (apply elem_of_successes; by exists c).
      rewrite Forall_forall in Hcols. destruct (Hcols _ Hdf) as [Hcol _].
      destruct (successes outs) as [|df0 frames] eqn:E; [by apply elem_of_nil in Hdf|].
      split.
      + unfold combine, pd_concat. cbn [columns]. apply existsb_exists.
        exists df. split; [|done]. by apply list_elem_of_In.
      + intros Hrec.
        assert (Hrows : rows_of (combine (df0 :: frames)) = [])
          by (unfold rows_of; by rewrite Hrec).
        rewrite rows_of_combine, concat_nil_iff, Forall_forall in Hrows.
        apply Hne. apply (fmap_nil_inv snd). apply Hrows.
        apply list_elem_of_fmap. by exists df. }
  split.
  - intros [df Hdf].
    destruct (run i) eqn:Hrun; [|by rewrite main_idle in Hdf].
    destruct (decide (1 ≤ length countries ≤ 15)%nat) as [Hlen|Hlen].
    + split; [done|]. split; [exact Hlen|]. apply Hempty.
      rewrite main_valid in Hdf by done. cbv zeta in Hdf. fold countries outs in Hdf.
      by destruct (df_empty _).
    + destruct (main_invalid int_of_str service i rt Hrun) as (m & _ & Hm);
        [fold countries; lia|]. by rewrite Hm in Hdf.
  - intros (Hrun & Hlen & Hex). apply Hempty in Hex.
    rewrite main_valid by done. cbv zeta. fold countries outs. rewrite Hex.
    by eexists.
Qed.

(** X18: when every fetch of an execution returned a table, executing the
    script again with the same inputs sends no GET and ends as the first
    execution did, with the same combined table, whatever the service would
    answer now. *)
Theorem rerun_from_memo service2 i rt :
  let countries := parse_countries (countries_text i) in
  let outs := (calls (INDICATORS (indicator_choice i)) (start_year i) (end_year i)
                 countries rt).1 in
  let rt1 := (main int_of_str service i rt).2 in
  run i = true →
  (1 ≤ length countries ≤ 15)%nat →
  Forall (λ o, is_ok o.2 = true) outs →
  (main int_of_str service2 i rt1).1 = (main int_of_str service i rt).1 ∧
  net_log (main int_of_str service2 i rt1).2 = net_log rt1.
Proof.
  intros countries outs rt1 Hrun Hlen Hok.
  set (code := INDICATORS (indicator_choice i)) in *.
  set (r := calls code (start_year i) (end_year i) countries rt).
  assert (Hhits : ∀ p, fetch_all int_of_str service2 code (start_year i) (end_year i)
                         countries (set_page p r.2) = (outs, set_page p r.2)).
  { intros p. rewrite <- (calls_countries int_of_str service code (start_year i)
                            (end_year i) countries rt) at 1.
    fold r outs. apply calls_all_hits. apply Forall_forall.
    intros [c [df|err]] Hin.
    - exists df. split; [done|]. simpl.
      by apply (calls_outcome_cached int_of_str service).
    - rewrite Forall_forall in Hok. by specialize (Hok _ Hin). }
  assert (Hrt1 : ∃ p, rt1 = set_page p r.2).
  { unfold rt1. rewrite main_valid by done. cbv zeta. fold code countries r.
    destruct (df_empty _); by eexists. }
  destruct Hrt1 as [p Hrt1]. rewrite Hrt1.
  rewrite !main_valid by done. cbv zeta. fold code countries r outs.
  rewrite Hhits. simpl. change r.1 with outs.
  by destruct (df_empty (combine (successes outs))).
Qed.

(** X19: with a sound memo, in an execution that passes validation, the
    loop of lines 81-85 collects the tables its calls of [fetch_world_bank]
    returned, in list order, each ascending by year; the table of line 87,
    which the script goes on to render unless it has no rows, is these
    tables one after the other, labelled 0, 1, 2, ... throughout. *)
Theorem combined_table_structure i rt :
  let code := INDICATORS (indicator_choice i) in
  let countries := parse_countries (countries_text i) in
  let outs := (calls code (start_year i) (end_year i) countries rt).1 in
  cache_sound int_of_str (cache rt) →
  run i = true →
  (1 ≤ length countries ≤ 15)%nat →
  ∃ frames rt',
    fetch_loop int_of_str service code (start_year i) (end_year i) countries [] rt
      = (Continue frames, rt') ∧
    frames = successes outs ∧
    Forall ascending_by_year frames ∧
    (main int_of_str service i rt).1
      = (if df_empty (combine frames) then Stopped else Continue (combine frames)) ∧
    rows_of (combine frames) = concat (rows_of <$> frames) ∧
    labels_of (combine frames) = seq 0 (length (concat (rows_of <$> frames))).
Proof.
  intros code countries outs Hc Hrun Hlen.
  eexists (successes outs), _. split_and!.
  - rewrite loop_calls. reflexivity.
  - done.
  - eapply Forall_impl; [by apply successes_columns|]. by intros df [_ ?].
  - rewrite (main_valid int_of_str service i rt Hrun Hlen). cbv zeta.
    fold code countries outs. by destruct (df_empty _).
  - apply rows_of_combine.
  - rewrite <- rows_of_combine. apply labels_of_combine.
Qed.

(** X20: the loop accounts for every country once: the number of tables it
    collects and the number of warnings it shows add up to the number of
    countries, and every warning names a listed country. *)
Theorem loop_partition ind s e countries rt :
  ∃ frames ws rt1,
    fetch_loop int_of_str service ind s e countries [] rt
      = (Continue frames, set_page (page rt ++ ws) rt1) ∧
    (length frames + length ws = length countries)%nat ∧
    Forall (warns_about countries) ws.
Proof.
  set (r := calls ind s e countries rt).
  exists (successes r.1), (warnings r.1), r.2.
  destruct (warnings_about r.1) as [Hw Hl].
  unfold r in Hw, Hl. rewrite calls_countries in Hw. fold r in Hw, Hl.
  split_and!; [apply loop_calls| |done].
  rewrite Hl, <- (calls_countries int_of_str service ind s e countries rt).
  fold r. by rewrite length_fmap.
Qed.

End Reruns.

(** ** The URL and the name of the export (lines 24-27, 108) *)

Lemma str_of_int_inj a b : str_of_int a = str_of_int b → a = b.
Proof.
  unfold str_of_int. intros H.
  assert (Hnn : ∀ n, Z.to_int n ≠ Decimal.Pos Decimal.Nil ∧
                     Z.to_int n ≠ Decimal.Neg Decimal.Nil).
  { intros [|p|p]; simpl; split; try discriminate.
    - intros [= Hp]. by apply DecimalPos.Unsigned.to_uint_nonnil in Hp.
    - intros [= Hp]. by apply DecimalPos.Unsigned.to_uint_nonnil in Hp. }
  apply (f_equal NilZero.int_of_string) in H.
  destruct (Hnn a), (Hnn b). rewrite !NilZero.isi in H by done.
  injection H as H. by apply DecimalZ.to_int_inj.
Qed.

Lemma string_of_uint_chars d :
  Forall (λ ch, digit_of ch ≠ None)
         (String.list_ascii_of_string (NilEmpty.string_of_uint d)).
Proof. induction d; simpl; constructor; done. Qed.

Lemma str_of_int_chars n :
  Forall (λ ch, digit_of ch ≠ None ∨ ch = "-"%char)
         (String.list_ascii_of_string (str_of_int n)).
Proof.
  assert (Hu : ∀ d, Forall (λ ch, digit_of ch ≠ None ∨ ch = "-"%char)
                      (String.list_ascii_of_string (NilZero.string_of_uint d))).
  { intros d. apply (Forall_impl (λ ch, digit_of ch ≠ None)); [|intros ch ?; by left].
    destruct d; try apply string_of_uint_chars. by repeat constructor. }
  unfold str_of_int. destruct (Z.to_int n) as [d|d]; simpl; [apply Hu|].
  constructor; [by right|apply Hu].
Qed.

(** A text is cut in one way only at a character its first part lacks. *)
Lemma append_sep_inj (x : ascii) a a' r r' :
  x ∉ String.list_ascii_of_string a →
  x ∉ String.list_ascii_of_string a' →
  String.append a (String x r) = String.append a' (String x r') →
  a = a' ∧ r = r'.
Proof.
  revert a'. induction a as [|c a IH]; intros [|c' a'] Ha Ha'; simpl.
  - by intros [= ->].
  - intros [= <- _]. exfalso. apply Ha'. simpl. left.
  - intros [= -> _]. exfalso. apply Ha. simpl. left.
  - intros [= <- H]. simpl in Ha, Ha'.
    destruct (IH a') as [-> ->]; [| |done|done].
    + intros ?. apply Ha. by right.
    + intros ?. apply Ha'. by right.
Qed.

Lemma append_inj_l p a b : String.append p a = String.append p b → a = b.
Proof. induction p as [|c p IH]; simpl; [done|]. intros [= H]. auto. Qed.

Lemma str_of_int_lacks (x : ascii) n :
  digit_of x = None → x ≠ "-"%char →
  x ∉ String.list_ascii_of_string (str_of_int n).
Proof.
  intros Hd Hm Hin. pose proof (str_of_int_chars n) as Hall.
  rewrite Forall_forall in Hall. destruct (Hall _ Hin) as [H| ->]; done.
Qed.

Lemma INDICATORS_inj a b : INDICATORS a = INDICATORS b → a = b.
Proof. destruct a, b; simpl; intros H; try done; discriminate H. Qed.

Lemma INDICATORS_lacks_underscore a :
  "_"%char ∉ String.list_ascii_of_string (INDICATORS a).
Proof.
  intros Hin. apply list_elem_of_In in Hin.
  destruct a; simpl in Hin; repeat (destruct Hin as [Hin|Hin]; [discriminate Hin|]);
    done.
Qed.

(** X21: the name of the export tells the query: two names are equal only
    for the same indicator, start year and end year. *)
Theorem file_name_inj a b s e s' e' :
  file_name (INDICATORS a) s e = file_name (INDICATORS b) s' e' →
  a = b ∧ s = s' ∧ e = e'.
Proof.
  unfold file_name. intros H%append_inj_l.
  apply append_sep_inj in H as [Hc H]; try apply INDICATORS_lacks_underscore.
  apply append_sep_inj in H as [Hs H]; try (by apply str_of_int_lacks).
  change ".csv"%string with (String "." "csv") in H.
  apply append_sep_inj in H as [He _]; try (by apply str_of_int_lacks).
  split_and!; [by apply INDICATORS_inj|by apply str_of_int_inj..].
Qed.

(** X22: for one country and indicator, two URLs are equal only for the
    same start and end year. *)
Theorem url_years_inj c ind s e s' e' :
  url c ind s e = url c ind s' e' → s = s' ∧ e = e'.
Proof.
  unfold url. intros H.
  do 5 apply append_inj_l in H.
  apply append_sep_inj in H as [Hs He]; try (by apply str_of_int_lacks).
  split; by apply str_of_int_inj.
Qed.

(** ** The further properties on the sample data *)

(** X2 on a text of blanks and a comma, in a fresh process. *)
Lemma parse_countries_nil_sample :
  (parse_countries " , " = [] ↔
   forallb separator (String.list_ascii_of_string " , ") = true) ∧
  (main int_of_decimal sample_service (sample_inputs " , ") fresh
   = (Stopped,
      set_page (page fresh ++ [Markdown "SP.POP.TOTL"; StError NoCountries]) fresh) ↔
   forallb separator (String.list_ascii_of_string " , ") = true).
Proof.
  apply (parse_countries_nil int_of_decimal sample_service (sample_inputs " , ") fresh);
    reflexivity.
Defined.

(** X3 on a single code with blanks around. *)
Lemma parse_countries_tokens_sample :
  parse_countries " deu " =
    if decide (strip " deu " = EmptyString) then [] else [upper (strip " deu ")].
Proof. apply (proj2 parse_countries_tokens). reflexivity. Defined.

(** X6 on [sample_rows]. *)
Lemma normalize_rows_labels_sample :
  columns (sample_table "DEU" "Germany") = true ∧
  Permutation (rows_of (sample_table "DEU" "Germany"))
    (filter (λ r, has_year r = true) (rows_of (pd_DataFrame sample_rows))) ∧
  labels_of (sample_table "DEU" "Germany")
  = seq 0 (length (rows_of (sample_table "DEU" "Germany"))).
Proof. apply normalize_rows_labels. vm_compute. reflexivity. Defined.

(** X7 on the DEU payload. *)
Lemma fetch_table_shape_sample :
  columns (sample_table "DEU" "Germany") = true ∧
  labels_of (sample_table "DEU" "Germany")
  = seq 0 (length (rows_of (sample_table "DEU" "Germany"))) ∧
  length (rows_of (sample_table "DEU" "Germany"))
  = length (filter (λ item, truthy (date_of item) = true)
              (entries_of (sample_payload "DEU" "Germany"))).
Proof.
  apply (fetch_table_shape int_of_decimal "deu" "SP.POP.TOTL" 200).
  vm_compute. reflexivity.
Defined.

(** X8 on the DEU payload. *)
Lemma fetch_rows_country_sample :
  ∃ kept,
    Forall2 (λ item r,
               country r = echoed "country" "value" (JStr (upper "deu")) item ∧
               (∃ y, py_int int_of_decimal (date_of item) = Ok y ∧ year r = Some y) ∧
               py_get item "value" = Ok (value r))
      (filter (λ item, truthy (date_of item) = true)
         (entries_of (sample_payload "DEU" "Germany"))) kept ∧
    Permutation (rows_of (sample_table "DEU" "Germany")) kept.
Proof.
  apply (fetch_rows_country int_of_decimal "deu" "SP.POP.TOTL" 200).
  vm_compute. reflexivity.
Defined.

(** X9 on the DEU payload. *)
Lemma fetch_rows_year_sample :
  Forall (λ r, ∃ item y, item ∈ entries_of (sample_payload "DEU" "Germany") ∧
                         truthy (date_of item) = true ∧
                         py_int int_of_decimal (date_of item) = Ok y ∧
                         year r = Some y)
         (rows_of (sample_table "DEU" "Germany")).
Proof.
  apply (fetch_rows_year int_of_decimal "deu" "SP.POP.TOTL" 200).
  vm_compute. reflexivity.
Defined.

(** X10 on [sample_rows], for the sorted arrangement written out. *)
Lemma normalize_any_sort_sample :
  normalize (pd_DataFrame sample_rows)
  = Ok (reset_index (Frame true
          [(2%nat, Row "DEU" (JStr "Germany") (JStr "SP.POP.TOTL") (Some 2000) JNull);
           (0%nat, Row "DEU" (JStr "Germany") (JStr "SP.POP.TOTL") (Some 2001)
                     (JInt 82350000))])).
Proof.
  apply normalize_any_sort.
  - reflexivity.
  - apply (bool_decide_unpack _). vm_compute. exact I.
  - vm_compute. apply perm_swap.
  - repeat constructor.
Defined.

(** X11: DEU fetched, then asked again of a service that does not answer. *)
Lemma fetch_twice_sample :
  fetch_world_bank int_of_decimal (λ _ _, NoReply) "DEU" "SP.POP.TOTL" 2000 2005
    (fetch_world_bank int_of_decimal sample_service "DEU" "SP.POP.TOTL" 2000 2005 fresh).2
  = (Ok (sample_table "DEU" "Germany"),
     (fetch_world_bank int_of_decimal sample_service "DEU" "SP.POP.TOTL" 2000 2005 fresh).2).
Proof.
  apply (fetch_twice int_of_decimal sample_service (λ _ _, NoReply)
           "DEU" "SP.POP.TOTL" 2000 2005 fresh).
  vm_compute. reflexivity.
Defined.

(** X12 on FRA, for which the GET gets no response. *)
Lemma fetch_raise_not_stored_sample :
  Runtime [("FRA", "SP.POP.TOTL", 2000, 2005)] ∅ []
  = Runtime (net_log fresh ++ [("FRA", "SP.POP.TOTL", 2000, 2005)]) (cache fresh)
      (page fresh) ∧
  cache fresh !! (("FRA", "SP.POP.TOTL", 2000, 2005) : request) = None ∧
  ∀ service2,
    (fetch_world_bank int_of_decimal service2 "FRA" "SP.POP.TOTL" 2000 2005
       (Runtime [("FRA", "SP.POP.TOTL", 2000, 2005)] ∅ [])).1
    = fetch_body int_of_decimal "FRA" "SP.POP.TOTL"
        (service2 (S (length (net_log fresh))) ("FRA", "SP.POP.TOTL", 2000, 2005)).
Proof.
  apply (fetch_raise_not_stored int_of_decimal sample_service
           "FRA" "SP.POP.TOTL" 2000 2005 fresh RequestException).
  vm_compute. reflexivity.
Defined.

(** X14 on "DEU,FRA" in a fresh process. *)
Lemma main_memo_invariant_sample :
  cache_sound int_of_decimal
    (cache (main int_of_decimal sample_service (sample_inputs "DEU,FRA") fresh).2) ∧
  ∀ k df, cache fresh !! k = Some df →
          cache (main int_of_decimal sample_service (sample_inputs "DEU,FRA") fresh).2 !! k
          = Some df.
Proof. apply main_memo_invariant. apply cache_sound_empty. Defined.

(** X17 on "FRA,BRA" in a fresh process. *)
Lemma main_renders_iff_sample :
  (∃ df, (main int_of_decimal sample_service (sample_inputs "FRA,BRA") fresh).1
         = Continue df) ↔
  run (sample_inputs "FRA,BRA") = true ∧
  (1 ≤ length (parse_countries "FRA,BRA") ≤ 15)%nat ∧
  ∃ c df,
    (c, Ok df) ∈ (fetch_all int_of_decimal sample_service "SP.POP.TOTL" 2000 2005
                    (parse_countries "FRA,BRA") fresh).1 ∧
    records df ≠ [].
Proof.
  apply (main_renders_iff int_of_decimal sample_service (sample_inputs "FRA,BRA") fresh).
  apply cache_sound_empty.
Defined.

(** X18 on "DEU,BRA", executed again with a service that does not answer. *)
Lemma rerun_from_memo_sample :
  (main int_of_decimal (λ _ _, NoReply) (sample_inputs "DEU,BRA")
     (main int_of_decimal sample_service (sample_inputs "DEU,BRA") fresh).2).1
  = (main int_of_decimal sample_service (sample_inputs "DEU,BRA") fresh).1 ∧
  net_log (main int_of_decimal (λ _ _, NoReply) (sample_inputs "DEU,BRA")
             (main int_of_decimal sample_service (sample_inputs "DEU,BRA") fresh).2).2
  = net_log (main int_of_decimal sample_service (sample_inputs "DEU,BRA") fresh).2.
Proof.
  apply (rerun_from_memo int_of_decimal sample_service (λ _ _, NoReply)
           (sample_inputs "DEU,BRA") fresh).
  - reflexivity.
  - vm_compute. lia.
  - vm_compute. repeat constructor.
Defined.

(** X19 on "DEU,FRA,BRA" in a fresh process. *)
Lemma combined_table_structure_sample :
  ∃ frames rt',
    fetch_loop int_of_decimal sample_service "SP.POP.TOTL" 2000 2005
      (parse_countries "DEU,FRA,BRA") [] fresh
      = (Continue frames, rt') ∧
    frames = successes
               (fetch_all int_of_decimal sample_service "SP.POP.TOTL" 2000 2005
                  (parse_countries "DEU,FRA,BRA") fresh).1 ∧
    Forall ascending_by_year frames ∧
    (main int_of_decimal sample_service (sample_inputs "DEU,FRA,BRA") fresh).1
      = (if df_empty (combine frames) then Stopped else Continue (combine frames)) ∧
    rows_of (combine frames) = concat (rows_of <$> frames) ∧
    labels_of (combine frames) = seq 0 (length (concat (rows_of <$> frames))).
Proof.
  apply (combined_table_structure int_of_decimal sample_service
           (sample_inputs "DEU,FRA,BRA") fresh).
  - apply cache_sound_empty.
  - reflexivity.
  - vm_compute. lia.
Defined.

(** X21 on one name. *)
Lemma file_name_inj_sample : Population = Population ∧ 2000 = 2000 ∧ 2005 = 2005.
Proof. apply file_name_inj. reflexivity. Defined.

(** X22 on one URL. *)
Lemma url_years_inj_sample : 2000 = 2000 ∧ 2005 = 2005.
Proof. apply (url_years_inj "DEU" "SP.POP.TOTL"). reflexivity. Defined.

(** The URL and the file name of the sample query. *)
Example url_sample :
  url "DEU" "SP.POP.TOTL" 2000 2005
  = String.append "https://api.worldbank.org/v2/country/DEU/indicator/SP.POP.TOTL"
                  "?format=json&per_page=2000&date=2000:2005" ∧
  file_name "SP.POP.TOTL" 2000 2005 = "macro_viz_SP.POP.TOTL_2000_2005.csv".
Proof. by vm_compute. Qed.
